(** * dataLogger.cpp: pressure-transducer logger on an NI USB-6002

    A shallow embedding of [main] of [dataLogger.cpp] and the properties of
    its acquisition / averaging / logging pipeline.

    - C++ [double] is IEEE binary64: Rocq's primitive [float].
    - [main] is one straight-line control flow with a single jump target
      ([Error:]), reached through the macro [DAQmxErrChk]; it is embedded in
      a small state-and-jump monad [M].
    - The NI-DAQmx driver, the wall clock and the file system are the
      environment.  The driver is a script of return values ([Device]); the
      clock is the sequence of strings returned by
      [return_current_time_and_date]; the calls crossing the driver
      boundary are recorded in the trace [calls].
    - The file system is taken to accept the [open] of line 81 and every
      write; the program does not look at the state of the stream either.
    - Console output ([std::cout], [printf]) is not observed by any property
      below and is left out. *)

From Stdlib Require Import Floats ZArith List String Ascii Bool Arith Lia.
Import ListNotations.

(* [String] also has a [length]; here it is always the one of lists. *)
Abbreviation length := Datatypes.length.

(* ================================================================== *)
(** * Part I: the program *)
(* ================================================================== *)

(** ** Doubles and [std::vector<double>] *)

Module Double.

(** [(double)v.size()]: conversion of a [size_t] to the nearest double. *)
Definition of_size (n : nat) : float :=
  SF2Prim (binary_normalize prec emax (Z.of_nat n) 0 false).

(** [std::accumulate(v.begin(), v.end(), init)]: a left-to-right sum. *)
Definition accumulate (v : list float) (init : float) : float :=
  fold_left PrimFloat.add v init.

(** [(double)std::accumulate(v.begin(), v.end(), 0.0) / (double)v.size()],
    the expression of lines 104 and 114. *)
Definition vector_mean (v : list float) : float :=
  (accumulate v 0 / of_size (length v))%float.

(** Line 107: [meani = (15.0 / 4.0) * (meani - 1.0)], volts to PSI. *)
Definition convert (meani : float) : float :=
  ((15 / 4) * (meani - 1))%float.

(** [v[i] = x] on a vector.  The program only indexes inside the vector;
    outside it the embedding leaves the vector as it is. *)
Fixpoint vec_set (i : nat) (x : float) (v : list float) : list float :=
  match v, i with
  | [], _ => []
  | _ :: v', O => x :: v'
  | y :: v', S i' => y :: vec_set i' x v'
  end.

(** The driver copies the samples it has into the front of the caller's
    array, at most [arraySizeInSamps] of them; the rest of the array keeps
    what it held. *)
Definition fill (arraySizeInSamps : nat) (samples old : list float)
  : list float :=
  let fresh := firstn arraySizeInSamps samples in
  fresh ++ skipn (length fresh) old.

End Double.
Import Double.

(** ** The output stream [myfile] *)

(** What [operator<<] receives: a string, a double, or [std::endl]. *)
Inductive item : Type :=
| Str (s : string)
| Dbl (d : float)
| Endl.

Definition nl : string := String (ascii_of_nat 10) EmptyString.

(** ["Date and Time , Pressure [PSI]\n"] *)
Definition header : string := ("Date and Time , Pressure [PSI]" ++ nl)%string.

Record ofstream : Type := {
  is_open : bool;
  file    : list item;   (* content of dataPressureTransducer.csv *)
  opens   : nat;         (* how often the file was opened *)
  closes  : nat          (* how often it was closed *)
}.

Definition ofstream_new : ofstream :=
  {| is_open := false; file := []; opens := 0; closes := 0 |}.

(** [open(name)] with the default mode [ios_base::out] creates or truncates
    the file; on a stream that is already open it fails and changes
    nothing. *)
Definition ofs_open (f : ofstream) : ofstream :=
  if is_open f then f
  else {| is_open := true; file := []; opens := S (opens f);
          closes := closes f |}.

(** [f << it]: appended at the end of the file; dropped when no file is
    open. *)
Definition ofs_put (it : item) (f : ofstream) : ofstream :=
  if is_open f
  then {| is_open := true; file := file f ++ [it]; opens := opens f;
          closes := closes f |}
  else f.

(** [close()]; also what the destructor does to a stream still open. *)
Definition ofs_close (f : ofstream) : ofstream :=
  if is_open f
  then {| is_open := false; file := file f; opens := opens f;
          closes := S (closes f) |}
  else f.

(** An open stream after [items] went through [operator<<]. *)
Definition appended (items : list item) (f : ofstream) : ofstream :=
  {| is_open := true; file := file f ++ items; opens := opens f;
     closes := closes f |}.

(** A file opened once, filled with [items] and closed once. *)
Definition closed_log (items : list item) : ofstream :=
  {| is_open := false; file := items; opens := 1; closes := 1 |}.

(** The text of the file, given how [operator<<] prints a double. *)
Definition render_item (show_double : float -> string) (it : item) : string :=
  match it with
  | Str s => s
  | Dbl d => show_double d
  | Endl => nl
  end.

Definition render (show_double : float -> string) (l : list item) : string :=
  fold_right (fun it acc => (render_item show_double it ++ acc)%string)
             EmptyString l.

(** The doubles among the items of a file, in order. *)
Fixpoint doubles (l : list item) : list float :=
  match l with
  | [] => []
  | Dbl d :: l' => d :: doubles l'
  | _ :: l' => doubles l'
  end.

(** ** The driver boundary *)

(** Calls that reach the driver, with the arguments that matter here. *)
Inductive DAQcall : Type :=
| CreateTask
| CreateAIVoltageChan (h : Z)
| CfgSampClkTiming (h : Z) (rate : float) (sampsPerChanToAcquire : nat)
| StartTask (h : Z)
| ReadAnalogF64 (h : Z) (numSampsPerChan arraySizeInSamps : nat)
| GetExtendedErrorInfo
| StopTask (h : Z)
| ClearTask (h : Z).

Definition is_read (c : DAQcall) : bool :=
  match c with ReadAnalogF64 _ _ _ => true | _ => false end.
Definition is_stop (c : DAQcall) : bool :=
  match c with StopTask _ => true | _ => false end.
Definition is_release (c : DAQcall) : bool :=
  match c with ClearTask _ => true | _ => false end.

Definition count (p : DAQcall -> bool) (l : list DAQcall) : nat :=
  length (filter p l).

(** What one [DAQmxReadAnalogF64] call gives back: its status and the
    samples it had for the caller. *)
Record ReadResult : Type := {
  rd_status  : Z;
  rd_samples : list float
}.

(** The driver as seen by one run: the status of each set-up call, the
    handle [DAQmxCreateTask] stores through [&taskHandle], and the outcome
    of the k-th read call. *)
Record Device : Type := {
  dev_CreateTask          : Z * Z;   (* status, handle *)
  dev_CreateAIVoltageChan : Z;
  dev_CfgSampClkTiming    : Z;
  dev_StartTask           : Z;
  dev_ReadAnalogF64       : nat -> ReadResult
}.

(** [NIDAQmx.h] is NI's header and is not among the sources.  Its macro is
    [#define DAQmxFailed(error) ((error)<0)]; the program is embedded over
    any [DAQmxFailed], and the examples use this one. *)
Definition DAQmxFailed_NI (error : Z) : bool := (error <? 0)%Z.

(** ** Configuration: the constants at the top of [main] *)

Record Config : Type := {
  frequency       : float;   (* sampling frequency, Hz *)
  bufferSize      : nat;     (* samples per read *)
  numberOfBuffers : nat;     (* reads averaged into one record *)
  numberOfSamples : nat      (* records to write *)
}.

Definition reference : Config :=
  {| frequency := 100; bufferSize := 100; numberOfBuffers := 60;
     numberOfSamples := 5000 |}.

(** ** The state of [main] *)

Record State : Type := {
  error          : Z;            (* int32 error *)
  taskHandle     : Z;            (* TaskHandle, 0 when there is none *)
  reads          : Z;            (* int32 reads *)
  dataBuffer     : list float;
  bufferAverages : list float;
  myfile         : ofstream;
  calls          : list DAQcall; (* driver calls so far, oldest first *)
  nread          : nat;          (* read calls so far *)
  nclock         : nat           (* timestamps taken so far *)
}.

Definition set_error (e : Z) (s : State) : State :=
  {| error := e; taskHandle := taskHandle s; reads := reads s;
     dataBuffer := dataBuffer s; bufferAverages := bufferAverages s;
     myfile := myfile s; calls := calls s; nread := nread s;
     nclock := nclock s |}.

Definition set_taskHandle (h : Z) (s : State) : State :=
  {| error := error s; taskHandle := h; reads := reads s;
     dataBuffer := dataBuffer s; bufferAverages := bufferAverages s;
     myfile := myfile s; calls := calls s; nread := nread s;
     nclock := nclock s |}.

Definition set_bufferAverages (v : list float) (s : State) : State :=
  {| error := error s; taskHandle := taskHandle s; reads := reads s;
     dataBuffer := dataBuffer s; bufferAverages := v;
     myfile := myfile s; calls := calls s; nread := nread s;
     nclock := nclock s |}.

Definition set_myfile (f : ofstream) (s : State) : State :=
  {| error := error s; taskHandle := taskHandle s; reads := reads s;
     dataBuffer := dataBuffer s; bufferAverages := bufferAverages s;
     myfile := f; calls := calls s; nread := nread s;
     nclock := nclock s |}.

(** Record one driver call. *)
Definition called (c : DAQcall) (s : State) : State :=
  {| error := error s; taskHandle := taskHandle s; reads := reads s;
     dataBuffer := dataBuffer s; bufferAverages := bufferAverages s;
     myfile := myfile s; calls := calls s ++ [c]; nread := nread s;
     nclock := nclock s |}.

(** The effect of one read on the locals it is given pointers to. *)
Definition set_read (buf : list float) (n : Z) (s : State) : State :=
  {| error := error s; taskHandle := taskHandle s; reads := n;
     dataBuffer := buf; bufferAverages := bufferAverages s;
     myfile := myfile s; calls := calls s; nread := S (nread s);
     nclock := nclock s |}.

Definition tick (s : State) : State :=
  {| error := error s; taskHandle := taskHandle s; reads := reads s;
     dataBuffer := dataBuffer s; bufferAverages := bufferAverages s;
     myfile := myfile s; calls := calls s; nread := nread s;
     nclock := S (nclock s) |}.

(** ** Control flow: statements that may [goto Error] *)

Inductive Flow (A : Type) : Type :=
| Continue (a : A) (s : State)
| Goto_Error (s : State).
Arguments Continue {A} a s.
Arguments Goto_Error {A} s.

Definition M (A : Type) : Type := State -> Flow A.

Definition ret {A : Type} (a : A) : M A := fun s => Continue a s.

Definition bind {A B : Type} (m : M A) (k : A -> M B) : M B :=
  fun s =>
    match m s with
    | Continue a s' => k a s'
    | Goto_Error s' => Goto_Error s'
    end.

Notation "m ;; k" := (bind m (fun _ => k))
  (at level 61, right associativity).

(** A statement that cannot jump. *)
Definition stmt (f : State -> State) : M unit := fun s => Continue tt (f s).

(** The state a flow ends in, on either exit. *)
Definition state_of {A : Type} (r : Flow A) : State :=
  match r with
  | Continue _ s => s
  | Goto_Error s => s
  end.

Definition jumped {A : Type} (r : Flow A) : bool :=
  match r with
  | Continue _ _ => false
  | Goto_Error _ => true
  end.

(** [m] keeps [P], whichever way it is left. *)
Definition preserves {A : Type} (P : State -> Prop) (m : M A) : Prop :=
  forall s, P s -> P (state_of (m s)).

(** [m] jumps only with a failed status in [error]. *)
Definition jumps_on_failure {A : Type} (failed : Z -> bool) (m : M A) : Prop :=
  forall s s', m s = Goto_Error s' -> failed (error s') = true.

(** [for (size_t i = 0; i != n; ++i) body], entered at index [i] with
    [todo] iterations left. *)
Fixpoint for_loop (body : nat -> M unit) (i todo : nat) : M unit :=
  match todo with
  | O => ret tt
  | S todo' => body i ;; for_loop body (S i) todo'
  end.

Section Program.

Variable DAQmxFailed : Z -> bool.
Variable cfg : Config.
Variable dev : Device.
(** [clock k] is what the k-th call of [return_current_time_and_date]
    returns. *)
Variable clock : nat -> string.

(** Line 24:
    [#define DAQmxErrChk(functionCall)
       if( DAQmxFailed(error=(functionCall)) ) goto Error; else] *)
Definition DAQmxErrChk (functionCall : State -> Z * State) : M unit :=
  fun s =>
    let (status, s1) := functionCall s in
    let s2 := set_error status s1 in
    if DAQmxFailed status then Goto_Error s2 else Continue tt s2.

(** *** The driver calls of [main] *)

Definition DAQmxCreateTask (s : State) : Z * State :=
  let (status, h) := dev_CreateTask dev in
  (status, set_taskHandle h (called CreateTask s)).

Definition DAQmxCreateAIVoltageChan (s : State) : Z * State :=
  (dev_CreateAIVoltageChan dev,
   called (CreateAIVoltageChan (taskHandle s)) s).

Definition DAQmxCfgSampClkTiming (s : State) : Z * State :=
  (dev_CfgSampClkTiming dev,
   called (CfgSampClkTiming (taskHandle s) (frequency cfg)
                            (bufferSize cfg)) s).

Definition DAQmxStartTask (s : State) : Z * State :=
  (dev_StartTask dev, called (StartTask (taskHandle s)) s).

(** Lines 93-101: read [bufferSize] samples into [dataBuffer.data()], an
    array of [bufferSize] doubles; the count goes to [reads]. *)
Definition DAQmxReadAnalogF64 (s : State) : Z * State :=
  let r := dev_ReadAnalogF64 dev (nread s) in
  let s1 := called (ReadAnalogF64 (taskHandle s) (bufferSize cfg)
                                  (bufferSize cfg)) s in
  (rd_status r,
   set_read (fill (bufferSize cfg) (rd_samples r) (dataBuffer s))
            (Z.of_nat (length (firstn (bufferSize cfg) (rd_samples r))))
            s1).

(** The locals after one read and the assignment to [error], on either
    branch of [DAQmxErrChk]. *)
Definition after_read (s : State) : State :=
  let (status, s1) := DAQmxReadAnalogF64 s in set_error status s1.

(** *** The loops *)

(** Lines 104-110: average the buffer, convert, store. *)
Definition store_mean (bufferi : nat) (s : State) : State :=
  let meani := vector_mean (dataBuffer s) in
  let meani := convert meani in
  set_bufferAverages (vec_set bufferi meani (bufferAverages s)) s.

(** Lines 91-110: the body of the loop over buffers. *)
Definition inner_body (bufferi : nat) : M unit :=
  DAQmxErrChk DAQmxReadAnalogF64 ;;
  stmt (store_mean bufferi).

(** Lines 28-37. *)
Definition return_current_time_and_date (s : State) : string * State :=
  (clock (nclock s), tick s).

(** Lines 113-120: the mean of the means, written with its timestamp. *)
Definition write_interval (s : State) : State :=
  let meanOfMeans := vector_mean (bufferAverages s) in
  let (now, s1) := return_current_time_and_date s in
  set_myfile
    (ofs_put Endl (ofs_put (Dbl meanOfMeans) (ofs_put (Str ",")
       (ofs_put (Str now) (myfile s1))))) s1.

(** Lines 87-121: the body of the loop over samples. *)
Definition outer_body (samplei : nat) : M unit :=
  for_loop inner_body 0 (numberOfBuffers cfg) ;;
  stmt write_interval.

(** *** [main] *)

(** Lines 44-64: the locals as declared. *)
Definition initial : State :=
  {| error := 0; taskHandle := 0; reads := 0;
     dataBuffer := repeat 0%float (bufferSize cfg);
     bufferAverages := repeat 0%float (numberOfBuffers cfg);
     myfile := ofstream_new; calls := []; nread := 0; nclock := 0 |}.

(** Lines 68-77: the four set-up calls. *)
Definition setup : M unit :=
  DAQmxErrChk DAQmxCreateTask ;;
  DAQmxErrChk DAQmxCreateAIVoltageChan ;;
  DAQmxErrChk DAQmxCfgSampClkTiming ;;
  DAQmxErrChk DAQmxStartTask.

(** Lines 81-123: open the file, write the header, loop, close. *)
Definition logging : M unit :=
  stmt (fun s => set_myfile (ofs_open (myfile s)) s) ;;
  stmt (fun s => set_myfile (ofs_put (Str header) (myfile s)) s) ;;
  for_loop outer_body 0 (numberOfSamples cfg) ;;
  stmt (fun s => set_myfile (ofs_close (myfile s)) s).

(** Lines 68-123: everything above the label. *)
Definition main_body : M unit := setup ;; logging.

(** Lines 126-136: the code at [Error:], reached by falling through or by
    [goto]. *)
Definition Error_label (s : State) : State :=
  let s1 := if DAQmxFailed (error s) then called GetExtendedErrorInfo s
            else s in
  if (taskHandle s1 =? 0)%Z then s1
  else called (ClearTask (taskHandle s1))
              (called (StopTask (taskHandle s1)) s1).

(** Line 140 and the end of scope: [return 0], then the destructor of
    [myfile]. *)
Definition main : Z * State :=
  let s := Error_label (state_of (main_body initial)) in
  (0%Z, set_myfile (ofs_close (myfile s)) s).

(** *** What the run computes, read off the driver's script *)

(** The locals when the four set-up calls have succeeded. *)
Definition after_setup : State :=
  let h := snd (dev_CreateTask dev) in
  {| error := dev_StartTask dev; taskHandle := h; reads := 0;
     dataBuffer := repeat 0%float (bufferSize cfg);
     bufferAverages := repeat 0%float (numberOfBuffers cfg);
     myfile := ofstream_new;
     calls := [CreateTask; CreateAIVoltageChan h;
               CfgSampClkTiming h (frequency cfg) (bufferSize cfg);
               StartTask h];
     nread := 0; nclock := 0 |}.

(** What holds of the driver trace from the first call on, up to the
    label: the handle is the one [DAQmxCreateTask] stored, nothing was
    stopped or released, and every read is on the trace. *)
Definition trace_inv (s : State) : Prop :=
  taskHandle s = snd (dev_CreateTask dev) /\
  count is_stop (calls s) = 0 /\
  count is_release (calls s) = 0 /\
  count is_read (calls s) = nread s /\
  hd_error (calls s) = Some CreateTask.

(** [dataBuffer] after [k] reads. *)
Fixpoint buffer_after (k : nat) : list float :=
  match k with
  | O => repeat 0%float (bufferSize cfg)
  | S k' => fill (bufferSize cfg)
                 (rd_samples (dev_ReadAnalogF64 dev k')) (buffer_after k')
  end.

(** The converted mean stored after read number [k] (from 0). *)
Definition window_mean (k : nat) : float :=
  convert (vector_mean (buffer_after (S k))).

(** The window means stored during outer iteration [j]. *)
Definition pushed (j : nat) : list float :=
  map window_mean (seq (j * numberOfBuffers cfg) (numberOfBuffers cfg)).

Definition interval_mean (j : nat) : float := vector_mean (pushed j).

(** The items of the line written at the end of outer iteration [j]. *)
Definition record (j : nat) : list item :=
  [Str (clock j); Str ","; Dbl (interval_mean j); Endl].

Definition records (n : nat) : list item := flat_map record (seq 0 n).

(** One line of the file as text: [<timestamp>,<value>\n]. *)
Definition line (show_double : float -> string) (j : nat) : string :=
  (clock j ++ "," ++ show_double (interval_mean j) ++ nl)%string.

(** The header row followed by the lines of intervals [0 .. n-1]. *)
Definition log_text (show_double : float -> string) (n : nat) : string :=
  (header ++ fold_right (fun j acc => line show_double j ++ acc)
                        EmptyString (seq 0 n))%string.

Definition read_ok (k : nat) : bool :=
  negb (DAQmxFailed (rd_status (dev_ReadAnalogF64 dev k))).

Definition setup_ok : bool :=
  negb (DAQmxFailed (fst (dev_CreateTask dev)))
  && negb (DAQmxFailed (dev_CreateAIVoltageChan dev))
  && negb (DAQmxFailed (dev_CfgSampClkTiming dev))
  && negb (DAQmxFailed (dev_StartTask dev)).

(** The first read among [k, k+1, ..., k+todo-1] whose status is a
    failure. *)
Fixpoint first_failed (k todo : nat) : option nat :=
  match todo with
  | O => None
  | S todo' => if read_ok k then first_failed (S k) todo' else Some k
  end.

Definition total_reads : nat := numberOfSamples cfg * numberOfBuffers cfg.

(** Outer iterations that run to their end. *)
Definition completed : nat :=
  match first_failed 0 total_reads with
  | Some m => m / numberOfBuffers cfg
  | None => numberOfSamples cfg
  end.

End Program.

(** ** Sample runs *)

(** A driver on which every set-up call succeeds, with task handle [h]. *)
Definition healthy (h : Z) (readings : nat -> ReadResult) : Device :=
  {| dev_CreateTask := (0%Z, h); dev_CreateAIVoltageChan := 0;
     dev_CfgSampClkTiming := 0; dev_StartTask := 0;
     dev_ReadAnalogF64 := readings |}.

(** Every read succeeds and delivers [samples]. *)
Definition steady (samples : list float) : nat -> ReadResult :=
  fun _ => {| rd_status := 0; rd_samples := samples |}.

(** Reads succeed up to read number [m], which times out (NI status
    -200284) and delivers nothing. *)
Definition times_out_at (m : nat) (samples : list float)
  : nat -> ReadResult :=
  fun k => if k <? m then {| rd_status := 0; rd_samples := samples |}
           else {| rd_status := -200284; rd_samples := [] |}.

(** No device: [DAQmxCreateTask] fails and leaves the handle 0. *)
Definition absent : Device :=
  {| dev_CreateTask := ((-200220)%Z, 0%Z); dev_CreateAIVoltageChan := 0;
     dev_CfgSampClkTiming := 0; dev_StartTask := 0;
     dev_ReadAnalogF64 := steady [] |}.

Definition noon : nat -> string := fun _ => "2021-03-05 12:00:00"%string.
Definition dusk : nat -> string := fun _ => "2021-03-05 18:30:00"%string.

(** Two reads of four samples per record, two records. *)
Definition small : Config :=
  {| frequency := 100; bufferSize := 4; numberOfBuffers := 2;
     numberOfSamples := 2 |}.

Definition square_wave : list float := [1; 3; 1; 3]%float.

(** [small] with [bufferSize = 0], and with [numberOfBuffers = 0]. *)
Definition no_samples : Config :=
  {| frequency := 100; bufferSize := 0; numberOfBuffers := 2;
     numberOfSamples := 2 |}.
Definition no_buffers : Config :=
  {| frequency := 100; bufferSize := 4; numberOfBuffers := 0;
     numberOfSamples := 2 |}.


(** ** The driver protocol of a run, as lists of calls *)

(** The four set-up calls, in program order, with the handle
    [DAQmxCreateTask] stored. *)
Definition setup_calls (cfg : Config) (dev : Device) : list DAQcall :=
  let h := snd (dev_CreateTask dev) in
  [CreateTask; CreateAIVoltageChan h;
   CfgSampClkTiming h (frequency cfg) (bufferSize cfg); StartTask h].

(** Their statuses, in the same order. *)
Definition setup_statuses (dev : Device) : list Z :=
  [fst (dev_CreateTask dev); dev_CreateAIVoltageChan dev;
   dev_CfgSampClkTiming dev; dev_StartTask dev].

(** How many calls of a list of statuses are made: all up to and
    including the first that fails. *)
Fixpoint made_until_failure (failed : Z -> bool) (statuses : list Z) : nat :=
  match statuses with
  | [] => 0
  | st :: rest =>
      if failed st then 1 else S (made_until_failure failed rest)
  end.

(** The read call of lines 93-101. *)
Definition read_call (cfg : Config) (dev : Device) : DAQcall :=
  ReadAnalogF64 (snd (dev_CreateTask dev)) (bufferSize cfg) (bufferSize cfg).

(** Lines 129-134. *)
Definition cleanup_calls (h : Z) : list DAQcall :=
  if (h =? 0)%Z then [] else [StopTask h; ClearTask h].

(** Reads made by a run whose set-up succeeded: all of them, or those up
    to and including the first that fails. *)
Definition reads_made (failed : Z -> bool) (cfg : Config) (dev : Device)
  : nat :=
  match first_failed failed dev 0 (total_reads cfg) with
  | Some m => S m
  | None => total_reads cfg
  end.

(** The status of the last call made when [r] reads followed the
    set-up. *)
Definition last_status (dev : Device) (r : nat) : Z :=
  match r with
  | O => dev_StartTask dev
  | S k => rd_status (dev_ReadAnalogF64 dev k)
  end.

Definition is_errinfo (c : DAQcall) : bool :=
  match c with GetExtendedErrorInfo => true | _ => false end.


(** The trace and [error] between the set-up and the label. *)
Definition reading (cfg : Config) (dev : Device) (s : State) : Prop :=
  taskHandle s = snd (dev_CreateTask dev) /\
  calls s = setup_calls cfg dev ++ repeat (read_call cfg dev) (nread s) /\
  error s = last_status dev (nread s).

(** ** [return_current_time_and_date], lines 28-37 *)

(** The fields of [struct tm] that the format uses. *)
Record tm : Type := {
  tm_sec  : nat;   (* seconds, 0-60 *)
  tm_min  : nat;   (* minutes, 0-59 *)
  tm_hour : nat;   (* hours, 0-23 *)
  tm_mday : nat;   (* day of the month, 1-31 *)
  tm_mon  : nat;   (* months since January, 0-11 *)
  tm_year : nat    (* years since 1900 *)
}.

(** What [std::localtime] returns for a time of this era. *)
Definition tm_valid (t : tm) : Prop :=
  tm_sec t <= 60 /\ tm_min t < 60 /\ tm_hour t < 24 /\
  1 <= tm_mday t <= 31 /\ tm_mon t < 12 /\ 1900 + tm_year t < 100 * 100.

(** The character of a decimal digit. *)
Definition digit (d : nat) : ascii := ascii_of_nat (48 + d).

(** [%d]: the decimal digits of [n] put in front of [acc], last digit
    first; [fuel] bounds the number of digits. *)
Fixpoint decimal_onto (fuel n : nat) (acc : string) : string :=
  match fuel with
  | O => acc
  | S fuel' =>
      let acc' := String (digit (n mod 10)) acc in
      if n <? 10 then acc' else decimal_onto fuel' (n / 10) acc'
  end.

Definition decimal (n : nat) : string := decimal_onto (S n) n EmptyString.

(** [%02d]: decimal, with a leading 0 below ten. *)
Definition pad2 (n : nat) : string :=
  if n <? 10 then String "0" (decimal n) else decimal n.

(** Two and four digits written out. *)
Definition two_digits (n : nat) : string :=
  String (digit (n / 10 mod 10)) (String (digit (n mod 10)) EmptyString).

Definition four_digits (n : nat) : string :=
  String (digit (n / 10 / 10 / 10 mod 10))
    (String (digit (n / 10 / 10 mod 10)) (two_digits n)).

(** Line 34: [ss << std::put_time(&t, "%Y-%m-%d %X")].  The program sets
    no locale, so [%X] is the ["C"] locale's [%H:%M:%S]. *)
Definition put_time (t : tm) : string :=
  (decimal (1900 + tm_year t) ++ "-" ++ pad2 (tm_mon t + 1) ++ "-"
   ++ pad2 (tm_mday t) ++ " " ++ pad2 (tm_hour t) ++ ":"
   ++ pad2 (tm_min t) ++ ":" ++ pad2 (tm_sec t))%string.

(** The clock of a run, when [localtime_now k] is the local time at the
    k-th call of [return_current_time_and_date]. *)
Definition wall_clock (localtime_now : nat -> tm) : nat -> string :=
  fun k => put_time (localtime_now k).

(** Reading a timestamp back. *)
Definition digit_value (c : ascii) : nat := nat_of_ascii c - 48.

Definition read2 (a b : ascii) : nat := 10 * digit_value a + digit_value b.

Definition parse_time (s : string) : option tm :=
  match s with
  | String y1 (String y2 (String y3 (String y4 (String _
    (String m1 (String m2 (String _
    (String d1 (String d2 (String _
    (String h1 (String h2 (String _
    (String n1 (String n2 (String _
    (String s1 (String s2 EmptyString)))))))))))))))))) =>
      Some {| tm_sec := read2 s1 s2; tm_min := read2 n1 n2;
              tm_hour := read2 h1 h2; tm_mday := read2 d1 d2;
              tm_mon := read2 m1 m2 - 1;
              tm_year := 100 * read2 y1 y2 + read2 y3 y4 - 1900 |}
  | _ => None
  end.

(** Earlier, same or later, field by field from the year down. *)
Definition then_compare (c1 c2 : comparison) : comparison :=
  match c1 with Eq => c2 | _ => c1 end.

Definition tm_compare (t1 t2 : tm) : comparison :=
  then_compare (tm_year t1 ?= tm_year t2)
  (then_compare (tm_mon t1 ?= tm_mon t2)
  (then_compare (tm_mday t1 ?= tm_mday t2)
  (then_compare (tm_hour t1 ?= tm_hour t2)
  (then_compare (tm_min t1 ?= tm_min t2)
                (tm_sec t1 ?= tm_sec t2))))).

Definition a_friday_noon : tm :=
  {| tm_sec := 0; tm_min := 0; tm_hour := 12; tm_mday := 5; tm_mon := 2;
     tm_year := 121 |}.
Definition a_friday_dusk : tm :=
  {| tm_sec := 7; tm_min := 30; tm_hour := 18; tm_mday := 5; tm_mon := 2;
     tm_year := 121 |}.

(** A read of four samples with a NaN among them. *)
Definition glitch : list float := [1; nan; 1; 3]%float.

(** Reads that deliver [samples] with a warning status (positive), the
    last one apart. *)
Definition warns_until (m : nat) (samples : list float)
  : nat -> ReadResult :=
  fun k => {| rd_status := if k <? m then 200010 else 0;
              rd_samples := samples |}.

(** A driver whose [n]-th set-up call (from 0) fails, with handle [h]. *)
Definition fails_setup_at (n : nat) (h : Z) : Device :=
  {| dev_CreateTask := (if n =? 0 then (-200088)%Z else 0%Z, h);
     dev_CreateAIVoltageChan := if n =? 1 then (-200170)%Z else 0%Z;
     dev_CfgSampClkTiming := if n =? 2 then (-200077)%Z else 0%Z;
     dev_StartTask := if n =? 3 then (-50103)%Z else 0%Z;
     dev_ReadAnalogF64 := steady square_wave |}.


(* ================================================================== *)
(** * Part II: properties *)
(* ================================================================== *)

(** ** Doubles: NaN is absorbing *)

Lemma Prim2SF_nan : Prim2SF nan = S754_nan.
Proof. reflexivity. Qed.

Lemma add_nan_l (x : float) : (nan + x)%float = nan.
Proof.
  apply Prim2SF_inj. rewrite add_spec, Prim2SF_nan. reflexivity.
Qed.

Lemma add_nan_r (x : float) : (x + nan)%float = nan.
Proof.
  apply Prim2SF_inj. rewrite add_spec, Prim2SF_nan.
  destruct (Prim2SF x) as [s| s | |s m e]; try destruct s; reflexivity.
Qed.

Lemma div_nan_l (x : float) : (nan / x)%float = nan.
Proof.
  apply Prim2SF_inj. rewrite div_spec, Prim2SF_nan. reflexivity.
Qed.

Lemma accumulate_nan (v : list float) : accumulate v nan = nan.
Proof.
  unfold accumulate. induction v as [|x v IH]; simpl.
  - reflexivity.
  - rewrite add_nan_l. exact IH.
Qed.

Lemma vector_mean_nil : vector_mean [] = nan.
Proof. vm_compute. reflexivity. Qed.

Lemma convert_nan : convert nan = nan.
Proof. vm_compute. reflexivity. Qed.

(** The mean of a non-empty vector of NaNs is NaN. *)
Lemma vector_mean_all_nan (v : list float) :
  v <> [] -> (forall x, In x v -> x = nan) -> vector_mean v = nan.
Proof.
  intros Hne Hall. destruct v as [|x v]; [congruence|].
  unfold vector_mean, accumulate. cbn [fold_left].
  rewrite (Hall x (or_introl eq_refl)), add_nan_r.
  fold (accumulate v nan). rewrite accumulate_nan. apply div_nan_l.
Qed.

(** ** Vectors *)

Lemma vec_set_length (i : nat) (x : float) (v : list float) :
  length (vec_set i x v) = length v.
Proof.
  revert i. induction v as [|y v IH]; intros [|i]; simpl; auto.
Qed.

(** Storing at index [i] replaces exactly the element at [i]. *)
Lemma vec_set_app (x y : float) (l1 l2 : list float) :
  vec_set (length l1) x (l1 ++ y :: l2) = l1 ++ x :: l2.
Proof.
  induction l1 as [|z l1 IH]; simpl; [reflexivity|]. now rewrite IH.
Qed.

Lemma fill_length (n : nat) (samples old : list float) :
  length old = n -> length (fill n samples old) = n.
Proof.
  intros H. unfold fill.
  rewrite length_app, length_skipn, length_firstn. lia.
Qed.

(** A read that delivers all [n] samples replaces the whole buffer. *)
Lemma fill_full (n : nat) (samples old : list float) :
  length old = n -> n <= length samples ->
  fill n samples old = firstn n samples.
Proof.
  intros Ho Hs. unfold fill.
  rewrite skipn_all2; [apply app_nil_r|].
  rewrite length_firstn. lia.
Qed.

Lemma fill_zero (samples : list float) : fill 0 samples [] = [].
Proof. reflexivity. Qed.

Lemma vec_set_firstn (x : float) (v : list float) (i : nat) :
  i < length v -> firstn (S i) (vec_set i x v) = firstn i v ++ [x].
Proof.
  revert i. induction v as [|y v IH]; intros i Hi; simpl in Hi; [lia|].
  destruct i as [|i]; [reflexivity|].
  cbn [vec_set]. rewrite !firstn_cons, IH by lia. reflexivity.
Qed.

Lemma vec_set_skipn (x : float) (v : list float) (i n : nat) :
  i < n -> skipn n (vec_set i x v) = skipn n v.
Proof.
  revert i n. induction v as [|y v IH]; intros i n Hin;
    [destruct i; reflexivity|].
  destruct n as [|n]; [lia|].
  destruct i as [|i]; cbn [vec_set skipn]; [reflexivity|].
  apply IH. lia.
Qed.

(** ** Strings *)

Lemma append_assoc (a b c : string) :
  ((a ++ b) ++ c)%string = (a ++ (b ++ c))%string.
Proof. induction a as [|ch a IH]; simpl; [reflexivity|]. now rewrite IH. Qed.

(** ** The statements of the program *)

Section Run.

Variable DAQmxFailed : Z -> bool.
Variable cfg : Config.
Variable dev : Device.
Variable clock : nat -> string.

Local Abbreviation nb := (numberOfBuffers cfg).
Local Abbreviation ok := (read_ok DAQmxFailed dev).
Local Abbreviation inner := (inner_body DAQmxFailed cfg dev).
Local Abbreviation outer := (outer_body DAQmxFailed cfg dev clock).
Local Abbreviation buf := (buffer_after cfg dev).
Local Abbreviation wmean := (window_mean cfg dev).
Local Abbreviation rec_items := (record cfg dev clock).

(** One inner iteration: the read decides alone whether the loop goes on. *)
Lemma inner_body_eq (bufferi : nat) (s : State) :
  inner bufferi s =
  if ok (nread s)
  then Continue tt (store_mean bufferi (after_read cfg dev s))
  else Goto_Error (after_read cfg dev s).
Proof.
  unfold inner_body, bind, DAQmxErrChk, after_read, read_ok, stmt.
  cbn [DAQmxReadAnalogF64].
  destruct (DAQmxFailed (rd_status (dev_ReadAnalogF64 dev (nread s))));
    reflexivity.
Qed.

Lemma after_read_buffer (s : State) :
  dataBuffer s = buf (nread s) ->
  dataBuffer (after_read cfg dev s) = buf (S (nread s)).
Proof. intros H. cbn. now rewrite H. Qed.

(** The inner loop when no read fails: [todo] more slots of
    [bufferAverages] are overwritten, nothing is written to the file. *)
Lemma inner_loop_ok (todo : nat) : forall (i : nat) (s : State),
  (forall k, k < todo -> ok (nread s + k) = true) ->
  dataBuffer s = buf (nread s) ->
  i + todo <= length (bufferAverages s) ->
  exists s',
    for_loop inner i todo s = Continue tt s' /\
    nread s' = nread s + todo /\
    dataBuffer s' = buf (nread s + todo) /\
    bufferAverages s' =
      firstn i (bufferAverages s) ++ map wmean (seq (nread s) todo)
      ++ skipn (i + todo) (bufferAverages s) /\
    myfile s' = myfile s /\ nclock s' = nclock s /\
    taskHandle s' = taskHandle s /\
    (DAQmxFailed (error s) = false -> DAQmxFailed (error s') = false).
Proof.
  induction todo as [|t IH]; intros i s Hok Hbuf Hlen.
  - exists s. cbn [for_loop ret seq map app].
    rewrite !Nat.add_0_r, firstn_skipn. auto 10.
  - cbn [for_loop]. unfold bind. rewrite inner_body_eq.
    assert (H0 : ok (nread s) = true).
    { rewrite <- (Nat.add_0_r (nread s)). apply Hok. lia. }
    rewrite H0.
    set (s1 := store_mean i (after_read cfg dev s)).
    assert (Hn1 : nread s1 = S (nread s)) by reflexivity.
    assert (Hb1 : dataBuffer s1 = buf (S (nread s))).
    { apply (after_read_buffer s Hbuf). }
    assert (Ha1 : bufferAverages s1 =
                  vec_set i (wmean (nread s)) (bufferAverages s)).
    { unfold s1, store_mean, window_mean. cbn. now rewrite Hbuf. }
    destruct (IH (S i) s1) as (s' & Hrun & Hn & Hb & Ha & Hf & Hc & Hh & He).
    + intros k Hk. rewrite Hn1.
      replace (S (nread s) + k) with (nread s + S k) by lia.
      apply Hok. lia.
    + now rewrite Hn1.
    + rewrite Ha1, vec_set_length. lia.
    + exists s'. split; [exact Hrun|].
      rewrite Hn1 in Hn, Hb, Ha.
      repeat split.
      * lia.
      * rewrite Hb. f_equal. lia.
      * rewrite Ha, Ha1.
        rewrite vec_set_firstn by lia.
        replace (S i + t) with (i + S t) by lia.
        rewrite vec_set_skipn by lia.
        cbn [seq map]. rewrite <- app_assoc. reflexivity.
      * exact Hf.
      * exact Hc.
      * exact Hh.
      * intros _. apply He. unfold s1. cbn.
        unfold read_ok in H0. now apply negb_true_iff in H0.
Qed.

(** The inner loop when read number [k] of it is the first to fail: the
    jump leaves the file and the clock as they were. *)
Lemma inner_loop_fail (todo : nat) : forall (i : nat) (s : State) (k : nat),
  k < todo ->
  (forall k', k' < k -> ok (nread s + k') = true) ->
  ok (nread s + k) = false ->
  exists s',
    for_loop inner i todo s = Goto_Error s' /\
    nread s' = nread s + S k /\
    myfile s' = myfile s /\ nclock s' = nclock s /\
    taskHandle s' = taskHandle s /\
    error s' = rd_status (dev_ReadAnalogF64 dev (nread s + k)).
Proof.
  induction todo as [|t IH]; intros i s k Hk Hbefore Hbad; [lia|].
  cbn [for_loop]. unfold bind. rewrite inner_body_eq.
  destruct k as [|k].
  - rewrite Nat.add_0_r in Hbad. rewrite Hbad.
    exists (after_read cfg dev s). rewrite Nat.add_0_r.
    repeat split. cbn. lia.
  - assert (H0 : ok (nread s) = true).
    { rewrite <- (Nat.add_0_r (nread s)). apply Hbefore. lia. }
    rewrite H0.
    set (s1 := store_mean i (after_read cfg dev s)).
    assert (Hn1 : nread s1 = S (nread s)) by reflexivity.
    destruct (IH (S i) s1 k) as (s' & Hrun & Hn & Hf & Hc & Hh & He).
    + lia.
    + intros k' Hk'. rewrite Hn1.
      replace (S (nread s) + k') with (nread s + S k') by lia.
      apply Hbefore. lia.
    + rewrite Hn1. replace (S (nread s) + k) with (nread s + S k) by lia.
      exact Hbad.
    + exists s'. split; [exact Hrun|]. rewrite Hn1 in Hn, He.
      replace (S (nread s) + k) with (nread s + S k) in He by lia.
      repeat split; try assumption. lia.
Qed.

(** *** The stream *)

Lemma ofs_put_open (it : item) (f : ofstream) :
  is_open f = true -> ofs_put it f = appended [it] f.
Proof. intros H. unfold ofs_put. now rewrite H. Qed.

Lemma appended_twice (l1 l2 : list item) (f : ofstream) :
  appended l2 (appended l1 f) = appended (l1 ++ l2) f.
Proof. unfold appended. cbn. now rewrite app_assoc. Qed.

Lemma appended_nil (f : ofstream) : is_open f = true -> appended [] f = f.
Proof.
  destruct f as [o c n m]. cbn. intros ->. unfold appended. cbn.
  now rewrite app_nil_r.
Qed.

(** Lines 113-120 on an open stream: one line of four items. *)
Lemma write_interval_open (s : State) :
  is_open (myfile s) = true ->
  myfile (write_interval clock s) =
    appended [Str (clock (nclock s)); Str ",";
              Dbl (vector_mean (bufferAverages s)); Endl] (myfile s).
Proof.
  intros H. unfold write_interval. cbn.
  rewrite (ofs_put_open _ _ H).
  rewrite !ofs_put_open by reflexivity.
  rewrite !appended_twice. reflexivity.
Qed.

(** *** The outer loop *)

(** No read fails: [todo] more lines, one for each outer iteration. *)
Lemma outer_loop_ok (todo : nat) : forall (j : nat) (s : State),
  (forall k, k < todo * nb -> ok (nread s + k) = true) ->
  nread s = j * nb -> nclock s = j ->
  dataBuffer s = buf (nread s) ->
  length (bufferAverages s) = nb ->
  is_open (myfile s) = true ->
  exists s',
    for_loop outer j todo s = Continue tt s' /\
    nread s' = (j + todo) * nb /\ nclock s' = j + todo /\
    myfile s' = appended (flat_map rec_items (seq j todo)) (myfile s) /\
    taskHandle s' = taskHandle s /\
    (DAQmxFailed (error s) = false -> DAQmxFailed (error s') = false).
Proof.
  induction todo as [|t IH]; intros j s Hok Hn Hc Hbuf Hlen Hopen.
  - exists s. cbn [for_loop ret seq flat_map].
    rewrite Nat.add_0_r, appended_nil by assumption. auto 10.
  - cbn [for_loop]. unfold bind at 1. unfold outer_body at 1. unfold bind at 1.
    destruct (inner_loop_ok nb 0 s) as (s1 & Hrun & Hn1 & Hb1 & Ha1 & Hf1 & Hc1 & Hh1 & He1).
    + intros k Hk. apply Hok. cbn. lia.
    + exact Hbuf.
    + lia.
    + rewrite Hrun. unfold stmt.
      set (s2 := write_interval clock s1).
      assert (Havg : bufferAverages s1 = pushed cfg dev j).
      { rewrite Ha1. cbn [firstn app Nat.add].
        rewrite skipn_all2 by lia. rewrite app_nil_r, Hn. reflexivity. }
      assert (Hf2 : myfile s2 = appended (rec_items j) (myfile s)).
      { unfold s2. rewrite write_interval_open by (now rewrite Hf1).
        rewrite Hf1, Hc1, Hc, Havg. reflexivity. }
      destruct (IH (S j) s2) as (s' & Hrun' & Hn' & Hc' & Hf' & Hh' & He').
      * intros k Hk. change (nread s2) with (nread s1). rewrite Hn1.
        rewrite <- Nat.add_assoc. apply Hok. cbn. lia.
      * change (nread s2) with (nread s1). rewrite Hn1, Hn. cbn. lia.
      * change (nclock s2) with (S (nclock s1)). now rewrite Hc1, Hc.
      * change (dataBuffer s2) with (dataBuffer s1).
        change (nread s2) with (nread s1). now rewrite Hb1, Hn1.
      * change (bufferAverages s2) with (bufferAverages s1).
        rewrite Havg. unfold pushed. now rewrite length_map, length_seq.
      * now rewrite Hf2.
      * exists s'. split; [exact Hrun'|].
        repeat split.
        -- rewrite Hn'. f_equal. lia.
        -- lia.
        -- rewrite Hf', Hf2, appended_twice. reflexivity.
        -- rewrite Hh'. exact Hh1.
        -- intros H. apply He'. apply He1. exact H.
Qed.

(** Read number [k] of outer iteration [j + a] is the first to fail: the
    jump happens with the lines of the [a] iterations before it, and no
    other. *)
Lemma outer_loop_fail (todo : nat) : forall (j : nat) (s : State) (a k : nat),
  a < todo -> k < nb ->
  (forall k', k' < a * nb + k -> ok (nread s + k') = true) ->
  ok (nread s + (a * nb + k)) = false ->
  nread s = j * nb -> nclock s = j ->
  dataBuffer s = buf (nread s) ->
  length (bufferAverages s) = nb ->
  is_open (myfile s) = true ->
  exists s',
    for_loop outer j todo s = Goto_Error s' /\
    nread s' = nread s + (a * nb + S k) /\ nclock s' = j + a /\
    myfile s' = appended (flat_map rec_items (seq j a)) (myfile s) /\
    taskHandle s' = taskHandle s /\
    error s' = rd_status (dev_ReadAnalogF64 dev (nread s + (a * nb + k))).
Proof.
  induction todo as [|t IH]; intros j s a k Ha Hk Hbefore Hbad Hn Hc Hbuf Hlen
    Hopen; [lia|].
  cbn [for_loop]. unfold bind at 1. unfold outer_body at 1. unfold bind at 1.
  destruct a as [|a].
  - destruct (inner_loop_fail nb 0 s k Hk) as (s' & Hrun & Hn' & Hf' & Hc' & Hh' & He').
    + intros k' Hk'. apply Hbefore. cbn. lia.
    + exact Hbad.
    + rewrite Hrun. exists s'. split; [reflexivity|].
      cbn [seq flat_map Nat.mul Nat.add].
      rewrite appended_nil by assumption.
      repeat split; try assumption. lia.
  - destruct (inner_loop_ok nb 0 s) as (s1 & Hrun & Hn1 & Hb1 & Ha1 & Hf1 & Hc1 & Hh1 & He1).
    + intros k' Hk'. apply Hbefore. cbn. lia.
    + exact Hbuf.
    + lia.
    + rewrite Hrun. unfold stmt.
      set (s2 := write_interval clock s1).
      assert (Havg : bufferAverages s1 = pushed cfg dev j).
      { rewrite Ha1. cbn [firstn app Nat.add].
        rewrite skipn_all2 by lia. rewrite app_nil_r, Hn. reflexivity. }
      assert (Hf2 : myfile s2 = appended (rec_items j) (myfile s)).
      { unfold s2. rewrite write_interval_open by (now rewrite Hf1).
        rewrite Hf1, Hc1, Hc, Havg. reflexivity. }
      destruct (IH (S j) s2 a k) as (s' & Hrun' & Hn' & Hc' & Hf' & Hh' & He').
      * lia.
      * exact Hk.
      * intros k' Hk'. change (nread s2) with (nread s1). rewrite Hn1.
        rewrite <- Nat.add_assoc. apply Hbefore. cbn. lia.
      * change (nread s2) with (nread s1). rewrite Hn1.
        rewrite <- Nat.add_assoc.
        replace (nb + (a * nb + k)) with (S a * nb + k) by (cbn; lia).
        exact Hbad.
      * change (nread s2) with (nread s1). rewrite Hn1, Hn. cbn. lia.
      * change (nclock s2) with (S (nclock s1)). now rewrite Hc1, Hc.
      * change (dataBuffer s2) with (dataBuffer s1).
        change (nread s2) with (nread s1). now rewrite Hb1, Hn1.
      * change (bufferAverages s2) with (bufferAverages s1).
        rewrite Havg. unfold pushed. now rewrite length_map, length_seq.
      * now rewrite Hf2.
      * exists s'. split; [exact Hrun'|].
        change (nread s2) with (nread s1) in Hn', He'. rewrite Hn1 in Hn', He'.
        repeat split.
        -- rewrite Hn'. cbn. lia.
        -- lia.
        -- rewrite Hf', Hf2, appended_twice. reflexivity.
        -- rewrite Hh'. exact Hh1.
        -- rewrite He'. do 2 f_equal. cbn. lia.
Qed.

End Run.

(** ** Invariants of the control flow *)

Lemma preserves_bind {A B : Type} (P : State -> Prop) (m : M A)
  (k : A -> M B) :
  preserves P m -> (forall a, preserves P (k a)) -> preserves P (bind m k).
Proof.
  intros Hm Hk s Hs. unfold bind. specialize (Hm s Hs).
  destruct (m s) as [a s'|s']; cbn in Hm; [apply Hk; exact Hm|exact Hm].
Qed.

Lemma preserves_stmt (P : State -> Prop) (f : State -> State) :
  (forall s, P s -> P (f s)) -> preserves P (stmt f).
Proof. intros H s Hs. apply H, Hs. Qed.

Lemma preserves_for_loop (P : State -> Prop) (body : nat -> M unit) :
  (forall i, preserves P (body i)) ->
  forall todo i, preserves P (for_loop body i todo).
Proof.
  intros Hbody. induction todo as [|t IH]; intros i.
  - intros s Hs. exact Hs.
  - cbn [for_loop]. apply preserves_bind; [apply Hbody|]. intros _. apply IH.
Qed.

Lemma preserves_ErrChk (failed : Z -> bool) (P : State -> Prop)
  (call : State -> Z * State) :
  (forall s, P s -> P (set_error (fst (call s)) (snd (call s)))) ->
  preserves P (DAQmxErrChk failed call).
Proof.
  intros H s Hs. unfold DAQmxErrChk. specialize (H s Hs).
  destruct (call s) as [status s1]. cbn in H.
  destruct (failed status); exact H.
Qed.

Lemma count_app (p : DAQcall -> bool) (l1 l2 : list DAQcall) :
  count p (l1 ++ l2) = count p l1 + count p l2.
Proof. unfold count. now rewrite filter_app, length_app. Qed.

Lemma hd_error_app (c : DAQcall) (l1 l2 : list DAQcall) :
  hd_error l1 = Some c -> hd_error (l1 ++ l2) = Some c.
Proof. destruct l1; cbn; [discriminate|auto]. Qed.

(** ** The whole run *)

Section Whole.

Variable DAQmxFailed : Z -> bool.
Variable cfg : Config.
Variable dev : Device.
Variable clock : nat -> string.

Local Abbreviation nb := (numberOfBuffers cfg).
Local Abbreviation N := (numberOfSamples cfg).
Local Abbreviation ok := (read_ok DAQmxFailed dev).
Local Abbreviation outer := (outer_body DAQmxFailed cfg dev clock).
Local Abbreviation recs := (records cfg dev clock).
Local Abbreviation body := (main_body DAQmxFailed cfg dev clock).
Local Abbreviation start := (initial cfg).
Local Abbreviation inv := (trace_inv dev).

(** *** The first failing read *)

Lemma first_failed_none (todo : nat) : forall k,
  first_failed DAQmxFailed dev k todo = None ->
  forall i, i < todo -> ok (k + i) = true.
Proof.
  induction todo as [|t IH]; intros k H i Hi; [lia|].
  cbn [first_failed] in H. destruct (ok k) eqn:Hk; [|discriminate].
  destruct i as [|i]; [now rewrite Nat.add_0_r|].
  replace (k + S i) with (S k + i) by lia. apply IH; [exact H|lia].
Qed.

Lemma first_failed_some (todo : nat) : forall k m,
  first_failed DAQmxFailed dev k todo = Some m ->
  exists i, i < todo /\ m = k + i /\
            (forall i', i' < i -> ok (k + i') = true) /\ ok m = false.
Proof.
  induction todo as [|t IH]; intros k m H; [discriminate|].
  cbn [first_failed] in H. destruct (ok k) eqn:Hk.
  - destruct (IH (S k) m H) as (i & Hi & Hm & Hbefore & Hbad).
    exists (S i). repeat split; [lia|lia| |exact Hbad].
    intros [|i'] Hi'; [now rewrite Nat.add_0_r|].
    replace (k + S i') with (S k + i') by lia. apply Hbefore. lia.
  - injection H as <-. exists 0. repeat split; [lia|lia| |exact Hk].
    intros i' Hi'. lia.
Qed.

(** *** Set-up *)

Lemma setup_runs :
  setup_ok DAQmxFailed dev = true ->
  setup DAQmxFailed cfg dev start = Continue tt (after_setup cfg dev).
Proof.
  unfold setup_ok. rewrite !andb_true_iff, !negb_true_iff.
  intros [[[H1 H2] H3] H4].
  unfold setup, bind, DAQmxErrChk, DAQmxCreateTask, after_setup.
  destruct (dev_CreateTask dev) as [status h]. cbn in H1 |- *.
  rewrite H1. cbn. rewrite H2. cbn. rewrite H3. cbn. rewrite H4.
  reflexivity.
Qed.

(** A failed set-up call jumps before the file is touched and before any
    read. *)
Lemma setup_fails :
  setup_ok DAQmxFailed dev = false ->
  exists s, setup DAQmxFailed cfg dev start = Goto_Error s /\
            myfile s = ofstream_new /\ nread s = 0 /\ nclock s = 0 /\
            DAQmxFailed (error s) = true.
Proof.
  unfold setup_ok. intros H.
  unfold setup, bind, DAQmxErrChk, DAQmxCreateTask.
  destruct (dev_CreateTask dev) as [status h]. cbn in H |- *.
  destruct (DAQmxFailed status) eqn:H1; [eauto 10|]. cbn.
  destruct (DAQmxFailed (dev_CreateAIVoltageChan dev)) eqn:H2; [eauto 10|].
  cbn.
  destruct (DAQmxFailed (dev_CfgSampClkTiming dev)) eqn:H3; [eauto 10|]. cbn.
  destruct (DAQmxFailed (dev_StartTask dev)) eqn:H4; [eauto 10|].
  discriminate.
Qed.

(** *** Lines 81-123 *)

Lemma logging_ok :
  (forall k, k < total_reads cfg -> ok k = true) ->
  exists s',
    logging DAQmxFailed cfg dev clock (after_setup cfg dev) = Continue tt s' /\
    myfile s' = closed_log (Str header :: recs N) /\
    nread s' = total_reads cfg /\ nclock s' = N /\
    taskHandle s' = snd (dev_CreateTask dev) /\
    (DAQmxFailed (dev_StartTask dev) = false ->
     DAQmxFailed (error s') = false).
Proof.
  intros Hok. unfold logging, bind, stmt.
  set (s0 := set_myfile _ (set_myfile _ _)).
  destruct (outer_loop_ok DAQmxFailed cfg dev clock N 0 s0)
    as (s' & Hrun & Hn & Hc & Hf & Hh & He);
    try reflexivity.
  - intros k Hk. apply Hok, Hk.
  - apply repeat_length.
  - rewrite Hrun. eexists. split; [reflexivity|].
    cbn -[header]. rewrite Hf. repeat split; assumption.
Qed.

Lemma logging_fail (j k : nat) :
  j < N -> k < nb ->
  (forall k', k' < j * nb + k -> ok k' = true) ->
  ok (j * nb + k) = false ->
  exists s',
    logging DAQmxFailed cfg dev clock (after_setup cfg dev) = Goto_Error s' /\
    myfile s' = appended (Str header :: recs j)
                  {| is_open := true; file := []; opens := 1; closes := 0 |} /\
    nread s' = j * nb + S k /\ nclock s' = j /\
    taskHandle s' = snd (dev_CreateTask dev) /\
    error s' = rd_status (dev_ReadAnalogF64 dev (j * nb + k)).
Proof.
  intros Hj Hk Hbefore Hbad. unfold logging, bind, stmt.
  set (s0 := set_myfile _ (set_myfile _ _)).
  destruct (outer_loop_fail DAQmxFailed cfg dev clock N 0 s0 j k)
    as (s' & Hrun & Hn & Hc & Hf & Hh & He);
    try reflexivity; try assumption.
  - apply repeat_length.
  - rewrite Hrun. eexists. split; [reflexivity|].
    repeat split; assumption.
Qed.

(** *** The label and the end of [main] *)

Lemma Error_label_frame (s : State) :
  myfile (Error_label DAQmxFailed s) = myfile s /\
  error (Error_label DAQmxFailed s) = error s /\
  nread (Error_label DAQmxFailed s) = nread s /\
  nclock (Error_label DAQmxFailed s) = nclock s /\
  taskHandle (Error_label DAQmxFailed s) = taskHandle s.
Proof.
  unfold Error_label.
  destruct (DAQmxFailed (error s)); cbn;
    destruct (taskHandle s =? 0)%Z; cbn; auto.
Qed.

(** What the label adds to the driver trace. *)
Lemma Error_label_calls (s : State) :
  calls (Error_label DAQmxFailed s) =
  (calls s ++ (if DAQmxFailed (error s) then [GetExtendedErrorInfo] else []))
  ++ (if (taskHandle s =? 0)%Z then []
      else [StopTask (taskHandle s); ClearTask (taskHandle s)]).
Proof.
  unfold Error_label.
  destruct (DAQmxFailed (error s)); cbn;
    destruct (taskHandle s =? 0)%Z; cbn;
    rewrite ?app_nil_r, <- ?app_assoc; reflexivity.
Qed.

Lemma main_state :
  snd (main DAQmxFailed cfg dev clock) =
  let s := Error_label DAQmxFailed (state_of (body start)) in
  set_myfile (ofs_close (myfile s)) s.
Proof. reflexivity. Qed.

Lemma main_body_after_setup :
  setup_ok DAQmxFailed dev = true ->
  body start = logging DAQmxFailed cfg dev clock (after_setup cfg dev).
Proof.
  intros H. unfold main_body, bind. now rewrite (setup_runs H).
Qed.

(** The run in which nothing fails. *)
Lemma main_ok :
  setup_ok DAQmxFailed dev = true ->
  (forall k, k < total_reads cfg -> ok k = true) ->
  exists s',
    body start = Continue tt s' /\
    myfile s' = closed_log (Str header :: recs N) /\
    nread s' = total_reads cfg /\ nclock s' = N /\
    taskHandle s' = snd (dev_CreateTask dev) /\
    DAQmxFailed (error s') = false.
Proof.
  intros Hs Hok. rewrite (main_body_after_setup Hs).
  destruct (logging_ok Hok) as (s' & Hrun & Hf & Hn & Hc & Hh & He).
  exists s'. repeat split; try assumption.
  apply He. unfold setup_ok in Hs.
  rewrite !andb_true_iff, !negb_true_iff in Hs. tauto.
Qed.

(** The run in which read [k] of outer iteration [j] is the first call to
    fail. *)
Lemma main_fail (j k : nat) :
  setup_ok DAQmxFailed dev = true ->
  j < N -> k < nb ->
  (forall k', k' < j * nb + k -> ok k' = true) ->
  ok (j * nb + k) = false ->
  exists s',
    body start = Goto_Error s' /\
    myfile s' = appended (Str header :: recs j)
                  {| is_open := true; file := []; opens := 1; closes := 0 |} /\
    nread s' = j * nb + S k /\ nclock s' = j /\
    taskHandle s' = snd (dev_CreateTask dev) /\
    error s' = rd_status (dev_ReadAnalogF64 dev (j * nb + k)).
Proof.
  intros Hs Hj Hk Hbefore Hbad. rewrite (main_body_after_setup Hs).
  apply logging_fail; assumption.
Qed.

(** Every run either completes all its reads or has a first failing read
    at some [(j, k)]. *)
Lemma completed_cases :
  (completed DAQmxFailed cfg dev = N /\
   forall k, k < total_reads cfg -> ok k = true)
  \/
  (exists j k, completed DAQmxFailed cfg dev = j /\ j < N /\ k < nb /\
               (forall k', k' < j * nb + k -> ok k' = true) /\
               ok (j * nb + k) = false).
Proof.
  unfold completed.
  destruct (first_failed DAQmxFailed dev 0 (total_reads cfg)) as [m|] eqn:H.
  - right. destruct (first_failed_some _ _ _ H) as (i & Hi & -> & Hb & Hbad).
    cbn [Nat.add] in *. unfold total_reads in Hi.
    assert (Hnb : nb <> 0) by (intros E; rewrite E in Hi; lia).
    exists (i / nb), (i mod nb).
    pose proof (Nat.div_mod_eq i nb) as Hdm.
    repeat split.
    + apply Nat.Div0.div_lt_upper_bound. lia.
    + now apply Nat.mod_upper_bound.
    + intros k' Hk'. apply Hb. lia.
    + replace (i / nb * nb + i mod nb) with i by lia. exact Hbad.
  - left. split; [reflexivity|]. intros k Hk.
    apply (first_failed_none _ _ H k Hk).
Qed.

(** The file at the end of a run whose set-up succeeded: opened once, the
    header and one line for each completed outer iteration, closed once. *)
Lemma main_file :
  setup_ok DAQmxFailed dev = true ->
  myfile (snd (main DAQmxFailed cfg dev clock)) =
  closed_log (Str header :: recs (completed DAQmxFailed cfg dev)).
Proof.
  intros Hs. rewrite main_state. cbv zeta. cbn [myfile set_myfile].
  destruct (Error_label_frame (state_of (body start))) as (-> & _).
  destruct completed_cases as [[-> Hok]|(j & k & -> & Hj & Hk & Hb & Hbad)].
  - destruct (main_ok Hs Hok) as (s' & Hrun & Hf & _).
    rewrite Hrun. cbn [state_of]. rewrite Hf. reflexivity.
  - destruct (main_fail j k Hs Hj Hk Hb Hbad) as (s' & Hrun & Hf & _).
    rewrite Hrun. cbn [state_of]. rewrite Hf. reflexivity.
Qed.

(** The file at the end of a run whose set-up failed: never opened. *)
Lemma main_file_no_setup :
  setup_ok DAQmxFailed dev = false ->
  myfile (snd (main DAQmxFailed cfg dev clock)) = ofstream_new.
Proof.
  intros Hs. rewrite main_state. cbv zeta. cbn [myfile set_myfile].
  destruct (Error_label_frame (state_of (body start))) as (-> & _).
  destruct (setup_fails Hs) as (s & Hrun & Hf & _).
  unfold main_body, bind. rewrite Hrun. cbn [state_of]. rewrite Hf.
  reflexivity.
Qed.

End Whole.

(** ** The driver trace and the jumps *)

Lemma bind_assoc {A B C : Type} (m : M A) (k : A -> M B) (k' : B -> M C)
  (s : State) :
  bind (bind m k) k' s = bind m (fun a => bind (k a) k') s.
Proof. unfold bind. destruct (m s); reflexivity. Qed.

Lemma jumps_bind {A B : Type} (failed : Z -> bool) (m : M A) (k : A -> M B) :
  jumps_on_failure failed m -> (forall a, jumps_on_failure failed (k a)) ->
  jumps_on_failure failed (bind m k).
Proof.
  intros Hm Hk s s'. unfold bind.
  destruct (m s) as [a s1|s1] eqn:E.
  - apply Hk.
  - intros [= <-]. apply (Hm s s1 E).
Qed.

Lemma jumps_stmt (failed : Z -> bool) (f : State -> State) :
  jumps_on_failure failed (stmt f).
Proof. intros s s'. discriminate. Qed.

Lemma jumps_for_loop (failed : Z -> bool) (body : nat -> M unit) :
  (forall i, jumps_on_failure failed (body i)) ->
  forall todo i, jumps_on_failure failed (for_loop body i todo).
Proof.
  intros Hbody. induction todo as [|t IH]; intros i.
  - intros s s'. discriminate.
  - cbn [for_loop]. apply jumps_bind; [apply Hbody|]. intros _. apply IH.
Qed.

Lemma jumps_ErrChk (failed : Z -> bool) (call : State -> Z * State) :
  jumps_on_failure failed (DAQmxErrChk failed call).
Proof.
  intros s s'. unfold DAQmxErrChk. destruct (call s) as [status s1].
  destruct (failed status) eqn:E; [|discriminate].
  intros [= <-]. exact E.
Qed.

Section Traces.

Variable DAQmxFailed : Z -> bool.
Variable cfg : Config.
Variable dev : Device.
Variable clock : nat -> string.

Local Abbreviation inner := (inner_body DAQmxFailed cfg dev).
Local Abbreviation outer := (outer_body DAQmxFailed cfg dev clock).
Local Abbreviation body := (main_body DAQmxFailed cfg dev clock).
Local Abbreviation start := (initial cfg).
Local Abbreviation inv := (trace_inv dev).

Ltac trace_step :=
  let s := fresh "s" in
  intros s (Hh & Hs & Hr & Hn & Hd); unfold trace_inv; cbn -[count];
  rewrite ?count_app; unfold count in *; cbn;
  repeat split; try assumption; try lia; try (apply hd_error_app; assumption).

Lemma inv_inner (i : nat) : preserves inv (inner i).
Proof.
  unfold inner_body. apply preserves_bind.
  - apply preserves_ErrChk. trace_step.
  - intros _. apply preserves_stmt. trace_step.
Qed.

Lemma inv_outer (j : nat) : preserves inv (outer j).
Proof.
  unfold outer_body. apply preserves_bind.
  - apply preserves_for_loop. apply inv_inner.
  - intros _. apply preserves_stmt. trace_step.
Qed.

Lemma inv_logging : preserves inv (logging DAQmxFailed cfg dev clock).
Proof.
  unfold logging.
  apply preserves_bind; [apply preserves_stmt; trace_step|intros _].
  apply preserves_bind; [apply preserves_stmt; trace_step|intros _].
  apply preserves_bind; [|intros _; apply preserves_stmt; trace_step].
  apply preserves_for_loop. apply inv_outer.
Qed.

(** Whatever happens above the label, the trace starts with
    [DAQmxCreateTask], holds every read, and no stop or release. *)
Lemma main_body_inv : inv (state_of (body start)).
Proof.
  unfold main_body, setup. rewrite bind_assoc. unfold bind at 1.
  unfold DAQmxErrChk at 1, DAQmxCreateTask.
  destruct (dev_CreateTask dev) as [status h] eqn:E.
  assert (H1 : inv (set_error status
                      (set_taskHandle h (called CreateTask start)))).
  { unfold trace_inv. rewrite E. cbn. auto. }
  destruct (DAQmxFailed status); [exact H1|].
  revert H1. generalize (set_error status
                           (set_taskHandle h (called CreateTask start))).
  change (preserves inv
    (bind (DAQmxErrChk DAQmxFailed (DAQmxCreateAIVoltageChan dev) ;;
           DAQmxErrChk DAQmxFailed (DAQmxCfgSampClkTiming cfg dev) ;;
           DAQmxErrChk DAQmxFailed (DAQmxStartTask dev))
          (fun _ => logging DAQmxFailed cfg dev clock))).
  apply preserves_bind; [|intros _; apply inv_logging].
  repeat (apply preserves_bind; [|intros _]);
    apply preserves_ErrChk; trace_step.
Qed.

(** A jump to the label always carries a failed status. *)
Lemma main_body_jumps : jumps_on_failure DAQmxFailed body.
Proof.
  unfold main_body, setup, logging, outer_body, inner_body.
  repeat first
    [ apply jumps_ErrChk | apply jumps_stmt
    | apply jumps_bind; [|intros _]
    | apply jumps_for_loop; intros ? ].
Qed.

(** From any state, the loops leave the stream as it was plus appended
    items. *)
Lemma outer_loop_appends (f0 : ofstream) (todo j : nat) :
  preserves (fun s => exists items, myfile s = appended items f0)
            (for_loop outer j todo).
Proof.
  apply preserves_for_loop. clear j. intros j.
  unfold outer_body. apply preserves_bind.
  - apply preserves_for_loop. intros i. unfold inner_body.
    apply preserves_bind; [apply preserves_ErrChk|intros _; apply preserves_stmt];
      intros s H; exact H.
  - intros _. apply preserves_stmt. intros s (items & H).
    rewrite write_interval_open by (now rewrite H).
    rewrite H, appended_twice. eauto.
Qed.

End Traces.

(** ** The records as values and as text *)

Section Records.

Variable cfg : Config.
Variable dev : Device.
Variable clock : nat -> string.

Local Abbreviation nb := (numberOfBuffers cfg).
Local Abbreviation imean := (interval_mean cfg dev).

Lemma doubles_flat_records (js : list nat) :
  doubles (flat_map (record cfg dev clock) js) = map imean js.
Proof.
  induction js as [|j js IH]; [reflexivity|].
  cbn [flat_map map]. unfold record at 1. cbn [app doubles].
  now rewrite IH.
Qed.

Lemma doubles_log (n : nat) :
  doubles (Str header :: records cfg dev clock n) = map imean (seq 0 n).
Proof. cbn [doubles]. apply doubles_flat_records. Qed.

Lemma render_log (show : float -> string) (n : nat) :
  render show (Str header :: records cfg dev clock n) =
  log_text cfg dev clock show n.
Proof.
  unfold log_text, records. cbn [render fold_right render_item]. f_equal.
  induction (seq 0 n) as [|j js IH]; [reflexivity|].
  cbn [flat_map fold_right]. change (render show) with
    (fold_right (fun it acc => (render_item show it ++ acc)%string)
                EmptyString) in IH.
  unfold record at 1. cbn [app fold_right render_item].
  rewrite IH. unfold line. rewrite !append_assoc. reflexivity.
Qed.

Lemma buffer_after_length (k : nat) :
  length (buffer_after cfg dev k) = bufferSize cfg.
Proof.
  induction k as [|k IH]; cbn [buffer_after].
  - apply repeat_length.
  - apply fill_length, IH.
Qed.

(** When every read delivers a full buffer, a window mean is the mean of
    the samples of its own read, and of nothing older. *)
Lemma window_mean_fresh (k : nat) :
  bufferSize cfg <= length (rd_samples (dev_ReadAnalogF64 dev k)) ->
  window_mean cfg dev k =
  convert (vector_mean (firstn (bufferSize cfg)
                               (rd_samples (dev_ReadAnalogF64 dev k)))).
Proof.
  intros H. unfold window_mean. cbn [buffer_after].
  rewrite fill_full; [reflexivity|apply buffer_after_length|exact H].
Qed.

Lemma buffer_after_empty :
  bufferSize cfg = 0 -> forall k, buffer_after cfg dev k = [].
Proof.
  intros H. induction k as [|k IH]; cbn [buffer_after]; rewrite H.
  - reflexivity.
  - rewrite IH. apply fill_zero.
Qed.

(** With an empty buffer or an empty window every interval mean is NaN. *)
Lemma interval_mean_nan :
  bufferSize cfg = 0 \/ nb = 0 -> forall j, imean j = nan.
Proof.
  intros H j. unfold interval_mean, pushed.
  destruct nb as [|n] eqn:E.
  - apply vector_mean_nil.
  - destruct H as [H|H]; [|discriminate].
    apply vector_mean_all_nan.
    + cbn [seq map]. discriminate.
    + intros x Hx. apply in_map_iff in Hx. destruct Hx as (k & <- & _).
      unfold window_mean. rewrite (buffer_after_empty H).
      rewrite vector_mean_nil. apply convert_nan.
Qed.

Lemma map_constant {A : Type} (x : float) (l : list A) :
  map (fun _ => x) l = repeat x (length l).
Proof. induction l as [|a l IH]; cbn; [reflexivity|now rewrite IH]. Qed.

End Records.

(** ** Two drivers with the same reads *)

Section SameReads.

Variable failed : Z -> bool.
Variable cfg : Config.
Variables dev1 dev2 : Device.
Hypothesis same_reads :
  forall k, dev_ReadAnalogF64 dev1 k = dev_ReadAnalogF64 dev2 k.

Lemma buffer_after_ext (k : nat) :
  buffer_after cfg dev1 k = buffer_after cfg dev2 k.
Proof.
  induction k as [|k IH]; cbn [buffer_after]; [reflexivity|].
  now rewrite IH, same_reads.
Qed.

Lemma interval_mean_ext (j : nat) :
  interval_mean cfg dev1 j = interval_mean cfg dev2 j.
Proof.
  unfold interval_mean, pushed. f_equal. apply map_ext. intros k.
  unfold window_mean. now rewrite buffer_after_ext.
Qed.

Lemma first_failed_ext (todo : nat) : forall k,
  first_failed failed dev1 k todo = first_failed failed dev2 k todo.
Proof.
  induction todo as [|t IH]; intros k; [reflexivity|].
  cbn [first_failed]. unfold read_ok. now rewrite same_reads, IH.
Qed.

Lemma completed_ext : completed failed cfg dev1 = completed failed cfg dev2.
Proof. unfold completed. now rewrite first_failed_ext. Qed.

End SameReads.

(* ================================================================== *)
(** * Part III: the properties of the specification *)
(* ================================================================== *)

(** Reads on the trace at the end of a run: those made above the label. *)
Lemma main_reads (failed : Z -> bool) (cfg : Config) (dev : Device)
  (clock : nat -> string) :
  count is_read (calls (snd (main failed cfg dev clock))) =
  nread (state_of (main_body failed cfg dev clock (initial cfg))).
Proof.
  rewrite main_state. cbv zeta. cbn [calls set_myfile].
  rewrite Error_label_calls, !count_app.
  destruct (main_body_inv failed cfg dev clock) as (_ & _ & _ & Hn & _).
  rewrite Hn.
  destruct (failed _); destruct (_ =? _)%Z; cbn; lia.
Qed.

Lemma main_frame (failed : Z -> bool) (cfg : Config) (dev : Device)
  (clock : nat -> string) :
  let above := state_of (main_body failed cfg dev clock (initial cfg)) in
  let final := snd (main failed cfg dev clock) in
  error final = error above /\ nread final = nread above /\
  nclock final = nclock above /\ taskHandle final = taskHandle above.
Proof.
  cbv zeta. rewrite main_state. cbv zeta.
  cbn [error nread nclock taskHandle set_myfile].
  destruct (Error_label_frame failed
              (state_of (main_body failed cfg dev clock (initial cfg))))
    as (_ & He & Hn & Hc & Hh).
  auto.
Qed.

(** C1. In a run in which no driver call fails, the program makes exactly
    [numberOfSamples * numberOfBuffers] reads and takes [numberOfSamples]
    timestamps, one for each outer iteration; the file holds the header and,
    for each outer iteration [j] in order, one record whose value is the
    mean of the [numberOfBuffers] converted window means stored during
    iteration [j], those of reads [j * numberOfBuffers] to
    [(j + 1) * numberOfBuffers - 1], and of nothing stored earlier. *)
Theorem fault_free_run (failed : Z -> bool) (cfg : Config) (dev : Device)
  (clock : nat -> string) :
  setup_ok failed dev = true ->
  (forall k, k < numberOfSamples cfg * numberOfBuffers cfg ->
             read_ok failed dev k = true) ->
  let final := snd (main failed cfg dev clock) in
  let value j :=
    vector_mean (map (window_mean cfg dev)
                     (seq (j * numberOfBuffers cfg) (numberOfBuffers cfg))) in
  count is_read (calls final) = numberOfSamples cfg * numberOfBuffers cfg /\
  nclock final = numberOfSamples cfg /\
  file (myfile final) =
    Str header ::
    flat_map (fun j => [Str (clock j); Str ","; Dbl (value j); Endl])
             (seq 0 (numberOfSamples cfg)) /\
  doubles (file (myfile final)) = map value (seq 0 (numberOfSamples cfg)) /\
  failed (error final) = false.
Proof.
  intros Hs Hok final value.
  destruct (main_ok failed cfg dev clock Hs Hok)
    as (s' & Hrun & Hf & Hn & Hc & Hh & He).
  destruct (main_frame failed cfg dev clock) as (Fe & Fn & Fc & _).
  rewrite Hrun in Fe, Fn, Fc. cbn [state_of] in Fe, Fn, Fc.
  assert (Hfile : myfile final =
                  closed_log (Str header ::
                              records cfg dev clock (numberOfSamples cfg))).
  { unfold final. rewrite main_file by exact Hs.
    destruct (completed_cases failed cfg dev)
      as [[-> _]|(j & k & _ & Hj & Hk & Hb & Hbad)]; [reflexivity|].
    rewrite Hok in Hbad; [discriminate|].
    apply Nat.lt_le_trans with (S j * numberOfBuffers cfg); [cbn; lia|].
    apply Nat.mul_le_mono_r. lia. }
  repeat split.
  - unfold final. rewrite main_reads, Hrun. exact Hn.
  - unfold final. now rewrite Fc.
  - rewrite Hfile. reflexivity.
  - rewrite Hfile. cbn [file closed_log]. apply doubles_log.
  - unfold final. now rewrite Fe.
Qed.

Lemma fault_free_run_example :
  let final := snd (main DAQmxFailed_NI small (healthy 7 (steady square_wave))
                         noon) in
  count is_read (calls final) = 4 /\
  nclock final = 2 /\
  doubles (file (myfile final)) = [3.75; 3.75]%float.
Proof.
  destruct (fault_free_run DAQmxFailed_NI small
              (healthy 7 (steady square_wave)) noon)
    as (H1 & H2 & _ & H4 & _).
  - reflexivity.
  - intros k _. reflexivity.
  - cbv zeta. rewrite H1, H2, H4. repeat split.
Defined.

(** C2. The conversion is [value = scale * (meanVoltage - offset)] with
    [scale = 15.0 / 4.0 = 3.75] and [offset = 1.0]; it maps 1.0 to 0.0, 5.0
    to 15.0 and 3.0 to 7.5.  It is a function of its argument alone, and
    it is what every inner iteration stores, whatever the mean is. *)
Theorem convert_is_affine :
  (forall meanVoltage : float,
     convert meanVoltage = (3.75 * (meanVoltage - 1))%float) /\
  (15 / 4 = 3.75)%float /\
  convert 1 = 0%float /\ convert 5 = 15%float /\ convert 3 = 7.5%float /\
  (forall (bufferi : nat) (s : State),
     bufferAverages (store_mean bufferi s) =
     vec_set bufferi (convert (vector_mean (dataBuffer s)))
             (bufferAverages s)).
Proof.
  repeat split.
Qed.

(** C6. [main] returns 0 in every run.  When a driver call fails, the run
    jumps to the label with the failed status in [error], goes through
    the same code as a run that falls through, and still returns 0. *)
Theorem exit_code_zero (failed : Z -> bool) (cfg : Config) (dev : Device)
  (clock : nat -> string) :
  fst (main failed cfg dev clock) = 0%Z /\
  (forall s : State,
     main_body failed cfg dev clock (initial cfg) = Continue tt s ->
     main failed cfg dev clock =
     (0%Z, set_myfile (ofs_close (myfile (Error_label failed s)))
                      (Error_label failed s))) /\
  (forall s : State,
     main_body failed cfg dev clock (initial cfg) = Goto_Error s ->
     failed (error s) = true /\
     main failed cfg dev clock =
     (0%Z, set_myfile (ofs_close (myfile (Error_label failed s)))
                      (Error_label failed s))).
Proof.
  split; [reflexivity|]. split.
  - intros s H. unfold main. now rewrite H.
  - intros s H. split.
    + apply (main_body_jumps failed cfg dev clock _ _ H).
    + unfold main. now rewrite H.
Qed.

Lemma exit_code_zero_example :
  fst (main DAQmxFailed_NI small (healthy 7 (times_out_at 3 square_wave))
            noon) = 0%Z /\
  DAQmxFailed_NI
    (error (snd (main DAQmxFailed_NI small
                      (healthy 7 (times_out_at 3 square_wave)) noon))) = true.
Proof.
  destruct (exit_code_zero DAQmxFailed_NI small
              (healthy 7 (times_out_at 3 square_wave)) noon)
    as (H0 & _ & Hjump).
  split; [exact H0|].
  destruct (main_body DAQmxFailed_NI small
              (healthy 7 (times_out_at 3 square_wave)) noon (initial small))
    as [[] s|s] eqn:E; [vm_compute in E; discriminate|].
  destruct (Hjump s eq_refl) as [_ ->]. vm_compute in E.
  injection E as <-. reflexivity.
Defined.

(** C9. When the first driver call to fail is read [k] of outer iteration
    [j], the file at the jump holds the header and the [j] records of the
    iterations completed before, and it ends the run with exactly that:
    nothing is written for the iteration that was cut short. *)
Theorem read_failure_keeps_completed (failed : Z -> bool) (cfg : Config)
  (dev : Device) (clock : nat -> string) (j k : nat) :
  setup_ok failed dev = true ->
  j < numberOfSamples cfg -> k < numberOfBuffers cfg ->
  (forall k', k' < j * numberOfBuffers cfg + k ->
              read_ok failed dev k' = true) ->
  read_ok failed dev (j * numberOfBuffers cfg + k) = false ->
  let final := snd (main failed cfg dev clock) in
  exists abort : State,
    main_body failed cfg dev clock (initial cfg) = Goto_Error abort /\
    file (myfile abort) = Str header :: records cfg dev clock j /\
    file (myfile final) = Str header :: records cfg dev clock j /\
    doubles (file (myfile final)) = map (interval_mean cfg dev) (seq 0 j) /\
    nclock final = j /\
    count is_read (calls final) = j * numberOfBuffers cfg + S k /\
    failed (error final) = true.
Proof.
  intros Hs Hj Hk Hbefore Hbad final.
  destruct (main_fail failed cfg dev clock j k Hs Hj Hk Hbefore Hbad)
    as (s' & Hrun & Hf & Hn & Hc & Hh & He).
  destruct (main_frame failed cfg dev clock) as (Fe & Fn & Fc & _).
  rewrite Hrun in Fe, Fn, Fc. cbn [state_of] in Fe, Fn, Fc.
  assert (Hfile : myfile final =
                  closed_log (Str header :: records cfg dev clock j)).
  { unfold final. rewrite main_state. cbv zeta. cbn [myfile set_myfile].
    destruct (Error_label_frame failed
                (state_of (main_body failed cfg dev clock (initial cfg))))
      as (-> & _).
    rewrite Hrun. cbn [state_of]. rewrite Hf. reflexivity. }
  exists s'. repeat split.
  - exact Hrun.
  - rewrite Hf. reflexivity.
  - rewrite Hfile. reflexivity.
  - rewrite Hfile. apply doubles_log.
  - unfold final. now rewrite Fc.
  - unfold final. rewrite main_reads, Hrun. exact Hn.
  - unfold final. rewrite Fe, He. unfold read_ok in Hbad.
    now apply negb_false_iff in Hbad.
Qed.

Lemma read_failure_keeps_completed_example :
  let final := snd (main DAQmxFailed_NI small
                         (healthy 7 (times_out_at 3 square_wave)) noon) in
  file (myfile final) =
    [Str header; Str (noon 0); Str ","; Dbl 3.75; Endl] /\
  count is_read (calls final) = 4.
Proof.
  destruct (read_failure_keeps_completed DAQmxFailed_NI small
              (healthy 7 (times_out_at 3 square_wave)) noon 1 1)
    as (abort & _ & _ & H3 & _ & _ & H6 & _).
  - reflexivity.
  - cbn. lia.
  - cbn. lia.
  - intros k' Hk'. cbn in Hk'.
    destruct k' as [|[|[|k']]]; [reflexivity..|lia].
  - reflexivity.
  - cbv zeta. rewrite H3, H6. split; reflexivity.
Defined.

(** C10. Two runs of the same configuration whose drivers give the same
    outcome to every read and agree on whether the set-up succeeds write
    the same sequence of values, whatever their clocks say. *)
Theorem logged_values_deterministic (failed : Z -> bool) (cfg : Config)
  (dev1 dev2 : Device) (clock1 clock2 : nat -> string) :
  setup_ok failed dev1 = setup_ok failed dev2 ->
  (forall k, dev_ReadAnalogF64 dev1 k = dev_ReadAnalogF64 dev2 k) ->
  doubles (file (myfile (snd (main failed cfg dev1 clock1)))) =
  doubles (file (myfile (snd (main failed cfg dev2 clock2)))).
Proof.
  intros Hsetup Hreads.
  destruct (setup_ok failed dev2) eqn:H2.
  - rewrite !main_file by assumption. cbn [file closed_log].
    rewrite !doubles_log.
    rewrite (completed_ext failed cfg dev1 dev2 Hreads).
    apply map_ext. intros j. now apply interval_mean_ext.
  - rewrite !main_file_no_setup by assumption. reflexivity.
Qed.

Lemma logged_values_deterministic_example :
  doubles (file (myfile (snd (main DAQmxFailed_NI small
    (healthy 7 (times_out_at 3 square_wave)) noon)))) =
  doubles (file (myfile (snd (main DAQmxFailed_NI small
    (healthy 12 (times_out_at 3 square_wave)) dusk)))).
Proof.
  apply (logged_values_deterministic DAQmxFailed_NI small
           (healthy 7 (times_out_at 3 square_wave))
           (healthy 12 (times_out_at 3 square_wave)) noon dusk).
  - reflexivity.
  - intros k. reflexivity.
Defined.

(** C3, at [bufferSize = 0]: the buffer is empty, every read succeeds, and
    nothing fails.  The run falls through to the label with no error, the
    mean of the empty buffer is the value NaN, and NaN is what is
    logged. *)
Lemma empty_buffer_is_averaged :
  let dev := healthy 7 (steady square_wave) in
  let final := snd (main DAQmxFailed_NI no_samples dev noon) in
  dataBuffer final = [] /\
  jumped (main_body DAQmxFailed_NI no_samples dev noon
                    (initial no_samples)) = false /\
  DAQmxFailed_NI (error final) = false /\
  vector_mean (dataBuffer final) = nan /\
  doubles (file (myfile final)) = [nan; nan].
Proof. vm_compute. repeat split. Qed.

(** C3, as the program has it.  The mean of a buffer is its left-to-right
    sum from 0.0 divided by its size, both as doubles; four samples
    1, 3, 1, 3 have mean 2.  For the empty buffer this is 0.0 / 0.0, the
    value NaN, and not a failure: an inner iteration jumps to the label
    exactly when the status of its read is a failure, whatever the
    buffer holds. *)
Theorem mean_is_sum_over_size (failed : Z -> bool) (cfg : Config)
  (dev : Device) :
  (forall v : list float,
     vector_mean v = (fold_left PrimFloat.add v 0 / of_size (length v))%float)
  /\ vector_mean square_wave = 2%float
  /\ vector_mean [] = nan
  /\ (forall (bufferi : nat) (s : State),
        jumped (inner_body failed cfg dev bufferi s) =
        failed (rd_status (dev_ReadAnalogF64 dev (nread s)))).
Proof.
  repeat split.
  intros bufferi s. rewrite inner_body_eq. unfold read_ok.
  destruct (failed _); reflexivity.
Qed.

(** C4, at a read that succeeds with one sample where four were asked
    for: the run does not fail, the three slots the driver did not write
    are averaged with the one it wrote, and the result is logged. *)
Lemma short_read_is_averaged :
  let dev := healthy 7 (steady [5]%float) in
  let final := snd (main DAQmxFailed_NI small dev noon) in
  length (rd_samples (dev_ReadAnalogF64 dev 0)) < bufferSize small /\
  reads final = 1%Z /\
  dataBuffer final = [5; 0; 0; 0]%float /\
  DAQmxFailed_NI (error final) = false /\
  doubles (file (myfile final)) = [0.9375; 0.9375]%float.
Proof. vm_compute. repeat split; lia. Qed.

(** C4, as the program has it.  Only the status of a read decides: a
    failed status jumps to the label before anything is averaged; any
    other status goes on, however few samples came.  The count goes to
    [reads] and is not looked at; the mean is taken over all
    [bufferSize] slots, the samples delivered followed by what the buffer
    held before. *)
Theorem read_status_alone_decides (failed : Z -> bool) (cfg : Config)
  (dev : Device) (bufferi : nat) (s : State) :
  let r := dev_ReadAnalogF64 dev (nread s) in
  let delivered := firstn (bufferSize cfg) (rd_samples r) in
  let buffer := delivered ++ skipn (length delivered) (dataBuffer s) in
  (failed (rd_status r) = true ->
   exists s', inner_body failed cfg dev bufferi s = Goto_Error s' /\
              error s' = rd_status r /\
              bufferAverages s' = bufferAverages s /\
              myfile s' = myfile s)
  /\
  (failed (rd_status r) = false ->
   exists s', inner_body failed cfg dev bufferi s = Continue tt s' /\
              reads s' = Z.of_nat (length delivered) /\
              dataBuffer s' = buffer /\
              bufferAverages s' =
                vec_set bufferi (convert (vector_mean buffer))
                        (bufferAverages s)).
Proof.
  cbv zeta. rewrite inner_body_eq. unfold read_ok. split; intros H; rewrite H.
  - eexists. split; [reflexivity|]. repeat split.
  - eexists. split; [reflexivity|]. repeat split.
Qed.

Lemma read_status_alone_decides_example :
  exists s',
    inner_body DAQmxFailed_NI small (healthy 7 (steady [5]%float)) 0
               (after_setup small (healthy 7 (steady [5]%float)))
    = Continue tt s' /\
    reads s' = 1%Z /\
    dataBuffer s' = [5; 0; 0; 0]%float /\
    bufferAverages s' = [0.9375; 0]%float.
Proof.
  destruct (read_status_alone_decides DAQmxFailed_NI small
              (healthy 7 (steady [5]%float)) 0
              (after_setup small (healthy 7 (steady [5]%float))))
    as [_ H].
  destruct (H eq_refl) as (s' & H1 & H2 & H3 & H4).
  exists s'. repeat split; assumption.
Defined.

(** C5, at a run in which [DAQmxCreateTask] fails and leaves the handle
    0: the label finds no task, and the driver sees neither a stop nor a
    release. *)
Lemma no_release_without_task :
  let final := snd (main DAQmxFailed_NI small absent noon) in
  calls final = [CreateTask; GetExtendedErrorInfo] /\
  count is_release (calls final) = 0 /\
  count is_stop (calls final) = 0.
Proof. vm_compute. repeat split. Qed.

(** C5, as the program has it.  In every run the code at the label is
    the last to call the driver.  With [h] the handle [DAQmxCreateTask]
    stored: when [h] is not 0 the trace ends with one stop and one release
    of [h], in this order, and holds no other; when [h] is 0 it holds
    neither.  So the driver sees at most one stop and at most one
    release, and exactly one of each whenever a task was created,
    wherever the run failed. *)
Theorem cleanup_when_task_exists (failed : Z -> bool) (cfg : Config)
  (dev : Device) (clock : nat -> string) :
  let final := snd (main failed cfg dev clock) in
  let h := snd (dev_CreateTask dev) in
  (exists above : list DAQcall,
     calls final =
       above ++ (if (h =? 0)%Z then [] else [StopTask h; ClearTask h]) /\
     count is_stop above = 0 /\ count is_release above = 0) /\
  count is_stop (calls final) = (if (h =? 0)%Z then 0 else 1) /\
  count is_release (calls final) = (if (h =? 0)%Z then 0 else 1) /\
  count is_stop (calls final) <= 1 /\
  count is_release (calls final) <= 1.
Proof.
  cbv zeta. rewrite main_state. cbv zeta. cbn [calls set_myfile].
  rewrite Error_label_calls.
  destruct (main_body_inv failed cfg dev clock) as (Hh & Hs & Hr & _ & _).
  rewrite Hh.
  set (above := calls _ ++ (if failed _ then _ else _)).
  assert (Ha : count is_stop above = 0 /\ count is_release above = 0).
  { unfold above. rewrite !count_app, Hs, Hr.
    destruct (failed _); split; reflexivity. }
  destruct Ha as [Ha1 Ha2].
  split; [exists above; auto|].
  rewrite !count_app, Ha1, Ha2.
  destruct (_ =? _)%Z; cbn; lia.
Qed.

(** The file and the status at the end of a run in which nothing fails. *)
Lemma run_without_failure (failed : Z -> bool) (cfg : Config) (dev : Device)
  (clock : nat -> string) :
  setup_ok failed dev = true ->
  (forall k, k < total_reads cfg -> read_ok failed dev k = true) ->
  myfile (snd (main failed cfg dev clock)) =
    closed_log (Str header :: records cfg dev clock (numberOfSamples cfg)) /\
  failed (error (snd (main failed cfg dev clock))) = false.
Proof.
  intros Hs Hok.
  destruct (main_ok failed cfg dev clock Hs Hok)
    as (s' & Hrun & Hf & _ & _ & _ & He).
  destruct (main_frame failed cfg dev clock) as (Fe & _).
  rewrite Hrun in Fe. cbn [state_of] in Fe. rewrite Fe. split; [|exact He].
  rewrite main_state. cbv zeta. cbn [myfile set_myfile].
  destruct (Error_label_frame failed
              (state_of (main_body failed cfg dev clock (initial cfg))))
    as (-> & _).
  rewrite Hrun. cbn [state_of]. rewrite Hf. reflexivity.
Qed.

Lemma completed_le (failed : Z -> bool) (cfg : Config) (dev : Device) :
  completed failed cfg dev <= numberOfSamples cfg.
Proof.
  destruct (completed_cases failed cfg dev)
    as [[-> _]|(j & k & -> & Hj & _)]; lia.
Qed.

(** C7, at [numberOfBuffers = 0] and at [bufferSize = 0]: nothing rejects
    the configuration.  The driver is called, the task is created,
    configured and started, the run ends with no error, and each record
    holds NaN. *)
Lemma zero_sizes_reach_the_driver :
  let dev := healthy 7 (steady square_wave) in
  let final0 := snd (main DAQmxFailed_NI no_buffers dev noon) in
  let final1 := snd (main DAQmxFailed_NI no_samples dev noon) in
  calls final0 =
    [CreateTask; CreateAIVoltageChan 7; CfgSampClkTiming 7 100 4;
     StartTask 7; StopTask 7; ClearTask 7] /\
  DAQmxFailed_NI (error final0) = false /\
  doubles (file (myfile final0)) = [nan; nan] /\
  firstn 4 (calls final1) =
    [CreateTask; CreateAIVoltageChan 7; CfgSampClkTiming 7 100 0;
     StartTask 7] /\
  DAQmxFailed_NI (error final1) = false /\
  doubles (file (myfile final1)) = [nan; nan].
Proof. vm_compute. repeat split. Qed.

(** C7, as the program has it.  Nothing looks at the sizes before the
    driver is called: whatever the configuration, the first thing a run
    does is call [DAQmxCreateTask].  With [bufferSize = 0] or
    [numberOfBuffers = 0] and a driver that never fails, the run ends
    with no error and writes [numberOfSamples] records, each holding
    NaN, the value of the division 0.0 / 0.0. *)
Theorem sizes_are_not_validated (failed : Z -> bool) (cfg : Config)
  (dev : Device) (clock : nat -> string) :
  let final := snd (main failed cfg dev clock) in
  hd_error (calls final) = Some CreateTask /\
  (bufferSize cfg = 0 \/ numberOfBuffers cfg = 0 ->
   setup_ok failed dev = true ->
   (forall k, k < numberOfSamples cfg * numberOfBuffers cfg ->
              read_ok failed dev k = true) ->
   failed (error final) = false /\
   doubles (file (myfile final)) = repeat nan (numberOfSamples cfg)).
Proof.
  cbv zeta. split.
  - rewrite main_state. cbv zeta. cbn [calls set_myfile].
    rewrite Error_label_calls.
    destruct (main_body_inv failed cfg dev clock) as (_ & _ & _ & _ & Hd).
    now do 2 apply hd_error_app.
  - intros Hzero Hs Hok.
    destruct (run_without_failure failed cfg dev clock Hs Hok) as [Hf He].
    split; [exact He|].
    rewrite Hf. cbn [file closed_log]. rewrite doubles_log.
    rewrite (map_ext _ (fun _ => nan) (interval_mean_nan cfg dev Hzero)).
    now rewrite map_constant, length_seq.
Qed.

Lemma sizes_are_not_validated_example :
  let final := snd (main DAQmxFailed_NI no_samples
                         (healthy 7 (steady square_wave)) noon) in
  hd_error (calls final) = Some CreateTask /\
  DAQmxFailed_NI (error final) = false /\
  doubles (file (myfile final)) = [nan; nan].
Proof.
  destruct (sizes_are_not_validated DAQmxFailed_NI no_samples
              (healthy 7 (steady square_wave)) noon) as [H1 H2].
  destruct H2 as [H2 H3].
  - left. reflexivity.
  - reflexivity.
  - intros k _. reflexivity.
  - cbv zeta. rewrite H1, H2, H3. repeat split.
Defined.

(** C8, at a run in which [DAQmxCreateTask] fails: the jump to the label
    comes before line 81, so the file is never opened, never closed, and
    no header is written. *)
Lemma no_header_without_setup :
  let final := snd (main DAQmxFailed_NI small absent noon) in
  file (myfile final) = [] /\
  opens (myfile final) = 0 /\ closes (myfile final) = 0.
Proof. vm_compute. repeat split. Qed.

(** C8, as the program has it.  In a run whose four set-up calls succeed
    the file is opened once, after the task is started, and closed once,
    by line 123 or by the destructor; it then consists of the header row
    [Date and Time , Pressure [PSI]] followed by one line
    [<timestamp>,<value>] for each completed outer iteration, in order.
    The loops only append to the open stream.  In a run whose set-up
    fails the file is never opened and nothing is written. *)
Theorem log_of_a_started_run (show_double : float -> string)
  (failed : Z -> bool) (cfg : Config) (dev : Device)
  (clock : nat -> string) :
  let final := snd (main failed cfg dev clock) in
  let n := completed failed cfg dev in
  (setup_ok failed dev = true ->
   n <= numberOfSamples cfg /\
   myfile final = closed_log (Str header :: records cfg dev clock n) /\
   render show_double (file (myfile final)) =
     log_text cfg dev clock show_double n) /\
  (setup_ok failed dev = false -> myfile final = ofstream_new) /\
  (forall (s : State) (j todo : nat),
     is_open (myfile s) = true ->
     exists items,
       myfile (state_of (for_loop (outer_body failed cfg dev clock) j todo s))
       = appended items (myfile s)).
Proof.
  cbv zeta. repeat split.
  - apply completed_le.
  - now apply main_file.
  - rewrite main_file by assumption. cbn [file closed_log].
    apply render_log.
  - apply main_file_no_setup.
  - intros s j todo Hopen.
    apply (outer_loop_appends failed cfg dev clock (myfile s) todo j s).
    exists []. symmetry. now apply appended_nil.
Qed.

Lemma log_of_a_started_run_example :
  render (fun _ => "3.75"%string)
    (file (myfile (snd (main DAQmxFailed_NI small
                             (healthy 7 (times_out_at 3 square_wave))
                             noon)))) =
  ("Date and Time , Pressure [PSI]" ++ nl ++
   "2021-03-05 12:00:00,3.75" ++ nl)%string.
Proof.
  destruct (log_of_a_started_run (fun _ => "3.75"%string) DAQmxFailed_NI
              small (healthy 7 (times_out_at 3 square_wave)) noon)
    as [H _].
  destruct (H eq_refl) as (_ & _ & ->).
  reflexivity.
Defined.

(* ================================================================== *)
(** * Part IV: further properties of the program *)
(* ================================================================== *)

(** ** What a run leaves above the label *)

Section Above.

Variable failed : Z -> bool.
Variable cfg : Config.
Variable dev : Device.
Variable clock : nat -> string.

Local Abbreviation nb := (numberOfBuffers cfg).
Local Abbreviation N := (numberOfSamples cfg).
Local Abbreviation ok := (read_ok failed dev).
Local Abbreviation body := (main_body failed cfg dev clock).
Local Abbreviation start := (initial cfg).
Local Abbreviation final := (snd (main failed cfg dev clock)).

(** The two ways a run goes once the set-up has succeeded. *)
Lemma run_cases :
  (first_failed failed dev 0 (total_reads cfg) = None /\
   forall k, k < total_reads cfg -> ok k = true)
  \/
  (exists j k, first_failed failed dev 0 (total_reads cfg) = Some (j * nb + k)
               /\ j < N /\ k < nb /\
               (forall k', k' < j * nb + k -> ok k' = true) /\
               ok (j * nb + k) = false).
Proof.
  destruct (first_failed failed dev 0 (total_reads cfg)) as [m|] eqn:H.
  - right. destruct (first_failed_some _ _ _ _ _ H) as (i & Hi & -> & Hb & Hbad).
    cbn [Nat.add] in *. unfold total_reads in Hi.
    assert (Hnb : nb <> 0) by (intros E; rewrite E in Hi; lia).
    exists (i / nb), (i mod nb).
    pose proof (Nat.div_mod_eq i nb) as Hdm.
    replace (i / nb * nb + i mod nb) with i by lia.
    repeat split.
    + apply Nat.Div0.div_lt_upper_bound. lia.
    + now apply Nat.mod_upper_bound.
    + exact Hb.
    + exact Hbad.
  - left. split; [reflexivity|]. intros k Hk.
    apply (first_failed_none _ _ _ _ H k Hk).
Qed.

Lemma div_of_place (j k : nat) : k < nb -> (j * nb + k) / nb = j.
Proof.
  intros Hk. rewrite Nat.div_add_l by lia. rewrite Nat.div_small by lia. lia.
Qed.

(** Reads, timestamps and the exit taken, for a run whose set-up
    succeeded. *)
Lemma run_summary :
  setup_ok failed dev = true ->
  nread (state_of (body start)) = reads_made failed cfg dev /\
  nclock (state_of (body start)) = completed failed cfg dev /\
  jumped (body start) =
    match first_failed failed dev 0 (total_reads cfg) with
    | Some _ => true
    | None => false
    end /\
  failed (error (state_of (body start))) = jumped (body start).
Proof.
  intros Hs. unfold reads_made, completed.
  destruct run_cases as [[-> Hok]|(j & k & -> & Hj & Hk & Hb & Hbad)].
  - destruct (main_ok failed cfg dev clock Hs Hok)
      as (s' & -> & _ & Hn & Hc & _ & He).
    cbn [state_of jumped]. auto.
  - destruct (main_fail failed cfg dev clock j k Hs Hj Hk Hb Hbad)
      as (s' & -> & _ & Hn & Hc & _ & He).
    cbn [state_of jumped]. rewrite (div_of_place j k Hk).
    split; [lia|]. split; [exact Hc|]. split; [reflexivity|].
    rewrite He. unfold read_ok in Hbad. now apply negb_false_iff in Hbad.
Qed.

(** *** The sizes *)





(** *** The trace between the set-up and the label *)

Lemma repeat_snoc {A : Type} (x : A) (n : nat) :
  repeat x n ++ [x] = repeat x (S n).
Proof. symmetry. apply repeat_cons. Qed.

Lemma reading_inner (i : nat) :
  preserves (reading cfg dev) (inner_body failed cfg dev i).
Proof.
  unfold inner_body. apply preserves_bind.
  - apply preserves_ErrChk. intros s (Hh & Hc & He).
    unfold reading. cbn -[setup_calls repeat read_call]. repeat split.
    + exact Hh.
    + rewrite Hc, Hh, <- app_assoc. f_equal. apply repeat_snoc.
  - intros _. apply preserves_stmt. intros s H. exact H.
Qed.

Lemma reading_logging :
  preserves (reading cfg dev) (logging failed cfg dev clock).
Proof.
  unfold logging, outer_body.
  repeat first
    [ apply reading_inner
    | apply preserves_for_loop; intros ?
    | apply preserves_bind; [|intros _]
    | apply preserves_stmt; intros s Hs; exact Hs ].
Qed.

Lemma reading_above :
  setup_ok failed dev = true -> reading cfg dev (state_of (body start)).
Proof.
  intros Hs. rewrite (main_body_after_setup failed cfg dev clock Hs).
  apply reading_logging. unfold reading, after_setup, setup_calls. cbn.
  auto.
Qed.

(** *** No diagnostic is asked for above the label *)

Lemma quiet_main_body :
  preserves (fun s => count is_errinfo (calls s) = 0) body.
Proof.
  unfold main_body, setup, logging, outer_body, inner_body.
  repeat first
    [ apply preserves_for_loop; intros ?
    | apply preserves_bind; [|intros _]
    | apply preserves_stmt; intros s Hs; exact Hs ];
    apply preserves_ErrChk; intros s Hs;
    unfold DAQmxCreateTask; try destruct (dev_CreateTask dev);
    cbn -[count]; rewrite count_app, Hs; reflexivity.
Qed.

End Above.

(** ** The driver protocol *)

(** X1. In a run whose set-up succeeds the driver sees, in this order: the
    four set-up calls; the reads, each for the created task and for
    exactly [bufferSize] samples into an array of [bufferSize], up to and
    including the first read that fails and none after it; the request
    for the error text when the run failed; the stop and the release of
    the task. *)
Theorem driver_protocol (failed : Z -> bool) (cfg : Config) (dev : Device)
  (clock : nat -> string) :
  setup_ok failed dev = true ->
  let final := snd (main failed cfg dev clock) in
  calls final =
    setup_calls cfg dev
    ++ repeat (read_call cfg dev) (reads_made failed cfg dev)
    ++ (if failed (error final) then [GetExtendedErrorInfo] else [])
    ++ cleanup_calls (snd (dev_CreateTask dev)).
Proof.
  intros Hs. cbv zeta.
  destruct (main_frame failed cfg dev clock) as (-> & _).
  rewrite main_state. cbv zeta. cbn [calls set_myfile].
  rewrite Error_label_calls.
  destruct (reading_above failed cfg dev clock Hs) as (-> & -> & _).
  destruct (run_summary failed cfg dev clock Hs) as (-> & _).
  unfold cleanup_calls. rewrite <- !app_assoc. reflexivity.
Qed.

Lemma driver_protocol_example :
  calls (snd (main DAQmxFailed_NI small
                   (healthy 7 (times_out_at 3 square_wave)) noon)) =
  [CreateTask; CreateAIVoltageChan 7; CfgSampClkTiming 7 100 4; StartTask 7;
   ReadAnalogF64 7 4 4; ReadAnalogF64 7 4 4; ReadAnalogF64 7 4 4;
   ReadAnalogF64 7 4 4; GetExtendedErrorInfo; StopTask 7; ClearTask 7].
Proof.
  rewrite (driver_protocol DAQmxFailed_NI small
             (healthy 7 (times_out_at 3 square_wave)) noon eq_refl).
  reflexivity.
Defined.

(** X2. In a run whose set-up fails the driver sees the set-up calls up
    to and including the first that fails, then the request for the error
    text, then the stop and the release if a handle was stored: the calls
    after the failing one are never made, no read is made, and [error]
    holds the failing status. *)
Theorem setup_failure_protocol (failed : Z -> bool) (cfg : Config)
  (dev : Device) (clock : nat -> string) :
  setup_ok failed dev = false ->
  let final := snd (main failed cfg dev clock) in
  let made := made_until_failure failed (setup_statuses dev) in
  calls final =
    firstn made (setup_calls cfg dev) ++ [GetExtendedErrorInfo]
    ++ cleanup_calls (snd (dev_CreateTask dev)) /\
  1 <= made <= 4 /\
  error final = nth (made - 1) (setup_statuses dev) 0%Z /\
  failed (error final) = true /\
  count is_read (calls final) = 0.
Proof.
  intros Hs. cbv zeta. unfold setup_ok in Hs.
  unfold main, main_body, setup, bind, DAQmxErrChk, DAQmxCreateTask,
    Error_label, setup_statuses, setup_calls, cleanup_calls.
  destruct (dev_CreateTask dev) as [status h]. cbn in Hs |- *.
  destruct (failed status) eqn:H1; cbn; rewrite ?H1.
  { destruct (h =? 0)%Z eqn:Eh; cbn; rewrite ?Eh; cbn;
    repeat split; (reflexivity || lia || assumption). }
  destruct (failed (dev_CreateAIVoltageChan dev)) eqn:H2; cbn; rewrite ?H2.
  { destruct (h =? 0)%Z eqn:Eh; cbn; rewrite ?Eh; cbn;
    repeat split; (reflexivity || lia || assumption). }
  destruct (failed (dev_CfgSampClkTiming dev)) eqn:H3; cbn; rewrite ?H3.
  { destruct (h =? 0)%Z eqn:Eh; cbn; rewrite ?Eh; cbn;
    repeat split; (reflexivity || lia || assumption). }
  destruct (failed (dev_StartTask dev)) eqn:H4; cbn; rewrite ?H4.
  { destruct (h =? 0)%Z eqn:Eh; cbn; rewrite ?Eh; cbn;
    repeat split; (reflexivity || lia || assumption). }
  discriminate.
Qed.

Lemma setup_failure_protocol_example :
  let final := snd (main DAQmxFailed_NI small (fails_setup_at 2 7) noon) in
  calls final =
    [CreateTask; CreateAIVoltageChan 7; CfgSampClkTiming 7 100 4;
     GetExtendedErrorInfo; StopTask 7; ClearTask 7] /\
  error final = (-200077)%Z.
Proof.
  destruct (setup_failure_protocol DAQmxFailed_NI small (fails_setup_at 2 7)
              noon eq_refl) as (H1 & _ & H3 & _).
  cbv zeta. rewrite H1, H3. split; reflexivity.
Defined.

(** X3. In a run whose set-up succeeds, [error] ends as the status of the
    last read made, or of [DAQmxStartTask] when no read was made: each
    call overwrites it, so a status that is not a failure, such as a
    warning, is lost as soon as another call returns. *)
Theorem error_is_last_status (failed : Z -> bool) (cfg : Config)
  (dev : Device) (clock : nat -> string) :
  setup_ok failed dev = true ->
  error (snd (main failed cfg dev clock)) =
  last_status dev (reads_made failed cfg dev).
Proof.
  intros Hs.
  destruct (main_frame failed cfg dev clock) as (-> & _).
  destruct (reading_above failed cfg dev clock Hs) as (_ & _ & ->).
  now destruct (run_summary failed cfg dev clock Hs) as (-> & _).
Qed.

Lemma error_is_last_status_example :
  error (snd (main DAQmxFailed_NI small
                   (healthy 7 (warns_until 3 square_wave)) noon)) = 0%Z /\
  rd_status (warns_until 3 square_wave 2) = 200010%Z.
Proof.
  rewrite (error_is_last_status DAQmxFailed_NI small
             (healthy 7 (warns_until 3 square_wave)) noon eq_refl).
  split; reflexivity.
Defined.

(** X4. The code at the label asks the driver for the error text once
    when [error] is a failure and never otherwise, and no other code asks
    for it; [error] ends as a failure exactly when the run jumped to the
    label, that is when a set-up call failed or one of the reads made
    failed. *)
Theorem diagnostic_iff_failure (failed : Z -> bool) (cfg : Config)
  (dev : Device) (clock : nat -> string) :
  let final := snd (main failed cfg dev clock) in
  count is_errinfo (calls final) = (if failed (error final) then 1 else 0) /\
  failed (error final) = jumped (main_body failed cfg dev clock (initial cfg))
  /\
  failed (error final) =
    negb (setup_ok failed dev
          && match first_failed failed dev 0 (total_reads cfg) with
             | Some _ => false
             | None => true
             end).
Proof.
  cbv zeta.
  destruct (main_frame failed cfg dev clock) as (He & _). rewrite He.
  split.
  - rewrite main_state. cbv zeta. cbn [calls set_myfile].
    rewrite Error_label_calls, !count_app.
    rewrite (quiet_main_body failed cfg dev clock (initial cfg) eq_refl).
    destruct (failed _); destruct (_ =? _)%Z; reflexivity.
  - destruct (setup_ok failed dev) eqn:Hs.
    + destruct (run_summary failed cfg dev clock Hs) as (_ & _ & Hj & Hf).
      rewrite Hf, Hj. split; [reflexivity|].
      now destruct (first_failed _ _ _ _).
    + destruct (setup_fails failed cfg dev Hs) as (s & Hrun & _ & _ & _ & Hf).
      unfold main_body, bind. rewrite Hrun. cbn. auto.
Qed.

(** X5. The clock is read once for each record written and at no other
    time: at the end of a run the number of timestamps taken is the
    number of values in the file, the completed outer iterations of a run
    whose set-up succeeded and none otherwise. *)
Theorem one_timestamp_per_record (failed : Z -> bool) (cfg : Config)
  (dev : Device) (clock : nat -> string) :
  let final := snd (main failed cfg dev clock) in
  nclock final = length (doubles (file (myfile final))) /\
  nclock final =
    (if setup_ok failed dev then completed failed cfg dev else 0).
Proof.
  cbv zeta.
  destruct (main_frame failed cfg dev clock) as (_ & _ & Hc & _). rewrite Hc.
  destruct (setup_ok failed dev) eqn:Hs.
  - rewrite (main_file failed cfg dev clock Hs). cbn [file closed_log].
    rewrite doubles_log, length_map, length_seq.
    destruct (run_summary failed cfg dev clock Hs) as (_ & -> & _). auto.
  - rewrite (main_file_no_setup failed cfg dev clock Hs).
    destruct (setup_fails failed cfg dev Hs) as (s & Hrun & _ & _ & Hn & _).
    unfold main_body, bind. rewrite Hrun. cbn. auto.
Qed.


(** ** What the logged values are made of *)

Lemma accumulate_has_nan (v : list float) :
  In nan v -> forall init, accumulate v init = nan.
Proof.
  unfold accumulate. induction v as [|x v IH]; intros H init; [destruct H|].
  cbn [fold_left]. destruct H as [->|H].
  - rewrite add_nan_r. apply accumulate_nan.
  - apply IH, H.
Qed.

Lemma vector_mean_has_nan (v : list float) :
  In nan v -> vector_mean v = nan.
Proof.
  intros H. unfold vector_mean. rewrite (accumulate_has_nan v H).
  apply div_nan_l.
Qed.

Section Values.

Variable failed : Z -> bool.
Variable cfg : Config.
Variable dev : Device.

Local Abbreviation nb := (numberOfBuffers cfg).
Local Abbreviation N := (numberOfSamples cfg).
Local Abbreviation ok := (read_ok failed dev).
Local Abbreviation samples := (fun k => rd_samples (dev_ReadAnalogF64 dev k)).

Lemma window_mean_has_nan (k : nat) :
  In nan (firstn (bufferSize cfg) (samples k)) -> window_mean cfg dev k = nan.
Proof.
  intros H. unfold window_mean. cbn [buffer_after]. unfold fill.
  rewrite vector_mean_has_nan; [apply convert_nan|].
  apply in_or_app. now left.
Qed.

Lemma interval_mean_has_nan (j i : nat) :
  i < nb -> window_mean cfg dev (j * nb + i) = nan ->
  interval_mean cfg dev j = nan.
Proof.
  intros Hi H. unfold interval_mean. apply vector_mean_has_nan.
  unfold pushed. rewrite <- H. apply in_map. apply in_seq. lia.
Qed.

Lemma nth_logged (f : nat -> float) (n j : nat) :
  j < n -> nth_error (map f (seq 0 n)) j = Some (f j).
Proof.
  intros H. rewrite nth_error_map, nth_error_seq.
  apply Nat.ltb_lt in H. now rewrite H.
Qed.

(** An outer iteration completes when it exists and all the reads up to
    its last one succeed. *)
Lemma completed_gt (j : nat) :
  j < completed failed cfg dev <->
  j < N /\ forall k, k < (j + 1) * nb -> ok k = true.
Proof.
  unfold completed.
  destruct (run_cases failed cfg dev)
    as [[-> Hok]|(j0 & k0 & -> & Hj & Hk & Hb & Hbad)].
  - split.
    + intros H. split; [exact H|]. intros k Hk. apply Hok.
      unfold total_reads. nia.
    + tauto.
  - rewrite (div_of_place cfg j0 k0 Hk). split.
    + intros H. split; [lia|]. intros k Hk'. apply Hb. nia.
    + intros [_ H]. destruct (Nat.lt_ge_cases j j0) as [Hlt|Hge]; [exact Hlt|].
      rewrite H in Hbad; [discriminate|]. nia.
Qed.

End Values.

(** X6. One NaN among the samples a read delivers into the buffer makes
    the record of its outer iteration NaN: in a run whose set-up
    succeeds, if read [i] of a completed outer iteration [j] delivers a
    NaN within its first [bufferSize] samples, the [j]-th value in the
    file is NaN. *)
Theorem nan_poisons_record (failed : Z -> bool) (cfg : Config) (dev : Device)
  (clock : nat -> string) (j i : nat) :
  setup_ok failed dev = true ->
  j < completed failed cfg dev ->
  i < numberOfBuffers cfg ->
  In nan (firstn (bufferSize cfg)
            (rd_samples (dev_ReadAnalogF64 dev (j * numberOfBuffers cfg + i))))
  ->
  nth_error (doubles (file (myfile (snd (main failed cfg dev clock))))) j
  = Some nan.
Proof.
  intros Hs Hj Hi Hnan.
  rewrite (main_file failed cfg dev clock Hs). cbn [file closed_log].
  rewrite doubles_log, (nth_logged _ _ _ Hj). f_equal.
  apply (interval_mean_has_nan cfg dev j i Hi).
  apply window_mean_has_nan, Hnan.
Qed.

Lemma nan_poisons_record_example :
  nth_error (doubles (file (myfile (snd (main DAQmxFailed_NI small
    (healthy 7 (steady glitch)) noon))))) 1 = Some nan.
Proof.
  apply (nan_poisons_record DAQmxFailed_NI small (healthy 7 (steady glitch))
           noon 1 0).
  - reflexivity.
  - vm_compute. lia.
  - cbn. lia.
  - cbn. right. left. reflexivity.
Defined.

(** X7. When no call fails and every read delivers at least [bufferSize]
    samples, the values in the file are a function of the first
    [bufferSize] samples of each read and of nothing else: value [j] is
    the mean, over the [numberOfBuffers] reads of outer iteration [j], of
    the converted mean of those samples.  Nothing of an earlier read and
    none of the zeros the buffer starts with enters. *)
Theorem full_reads_closed_form (failed : Z -> bool) (cfg : Config)
  (dev : Device) (clock : nat -> string) :
  setup_ok failed dev = true ->
  (forall k, k < numberOfSamples cfg * numberOfBuffers cfg ->
     read_ok failed dev k = true /\
     bufferSize cfg <= length (rd_samples (dev_ReadAnalogF64 dev k))) ->
  doubles (file (myfile (snd (main failed cfg dev clock)))) =
  map (fun j =>
         vector_mean
           (map (fun k =>
                   convert (vector_mean
                     (firstn (bufferSize cfg)
                             (rd_samples (dev_ReadAnalogF64 dev k)))))
                (seq (j * numberOfBuffers cfg) (numberOfBuffers cfg))))
      (seq 0 (numberOfSamples cfg)).
Proof.
  intros Hs Hfull.
  destruct (run_without_failure failed cfg dev clock Hs) as [-> _].
  { intros k Hk. now apply Hfull. }
  cbn [file closed_log]. rewrite doubles_log.
  apply map_ext_in. intros j Hj. apply in_seq in Hj.
  unfold interval_mean, pushed. f_equal.
  apply map_ext_in. intros k Hk. apply in_seq in Hk.
  apply window_mean_fresh. apply Hfull. nia.
Qed.

Lemma full_reads_closed_form_example :
  doubles (file (myfile (snd (main DAQmxFailed_NI small
    (healthy 7 (steady ([1; 3; 1; 3; 9; 9]%float))) noon)))) =
  [3.75; 3.75]%float.
Proof.
  rewrite (full_reads_closed_form DAQmxFailed_NI small
             (healthy 7 (steady ([1; 3; 1; 3; 9; 9]%float))) noon).
  - reflexivity.
  - reflexivity.
  - intros k _. split; [reflexivity|]. cbn. lia.
Defined.

(** ** Two drivers with the same first reads *)

Section SamePrefix.

Variable failed : Z -> bool.
Variable cfg : Config.
Variables dev1 dev2 : Device.
Variable m : nat.
Hypothesis same_first :
  forall k, k < m -> dev_ReadAnalogF64 dev1 k = dev_ReadAnalogF64 dev2 k.

Lemma buffer_after_agree (k : nat) :
  k <= m -> buffer_after cfg dev1 k = buffer_after cfg dev2 k.
Proof.
  induction k as [|k IH]; intros Hk; cbn [buffer_after]; [reflexivity|].
  rewrite IH by lia. now rewrite same_first by lia.
Qed.

Lemma interval_mean_agree (j : nat) :
  (j + 1) * numberOfBuffers cfg <= m ->
  interval_mean cfg dev1 j = interval_mean cfg dev2 j.
Proof.
  intros Hj. unfold interval_mean, pushed. f_equal.
  apply map_ext_in. intros k Hk. apply in_seq in Hk.
  unfold window_mean. rewrite buffer_after_agree; [reflexivity|lia].
Qed.

Lemma read_ok_agree (k : nat) :
  k < m -> read_ok failed dev1 k = read_ok failed dev2 k.
Proof. intros Hk. unfold read_ok. now rewrite same_first. Qed.

End SamePrefix.

Lemma firstn_seq_le (n len : nat) : forall start,
  n <= len -> firstn n (seq start len) = seq start n.
Proof.
  revert len. induction n as [|n IH]; intros len start H; [reflexivity|].
  destruct len as [|len]; [lia|]. cbn [seq firstn]. f_equal.
  apply IH. lia.
Qed.

(** X9. A record depends on the reads made up to the end of its outer
    iteration and on nothing later: if two drivers both pass the set-up
    and give the same outcomes to the first [(j + 1) * numberOfBuffers]
    reads, and the run on the first completes outer iteration [j], then
    so does the run on the second, and the first [j + 1] values of the
    two files are the same, whatever the drivers do afterwards. *)
Theorem records_are_causal (failed : Z -> bool) (cfg : Config)
  (dev1 dev2 : Device) (clock1 clock2 : nat -> string) (j : nat) :
  setup_ok failed dev1 = true ->
  setup_ok failed dev2 = true ->
  j < completed failed cfg dev1 ->
  (forall k, k < (j + 1) * numberOfBuffers cfg ->
             dev_ReadAnalogF64 dev1 k = dev_ReadAnalogF64 dev2 k) ->
  j < completed failed cfg dev2 /\
  firstn (S j) (doubles (file (myfile (snd (main failed cfg dev1 clock1)))))
  = firstn (S j)
      (doubles (file (myfile (snd (main failed cfg dev2 clock2))))).
Proof.
  intros Hs1 Hs2 Hj Hsame.
  assert (Hj2 : j < completed failed cfg dev2).
  { apply completed_gt. apply completed_gt in Hj. destruct Hj as [HjN Hok].
    split; [exact HjN|]. intros k Hk.
    rewrite <- (read_ok_agree failed dev1 dev2 _ Hsame k Hk). now apply Hok. }
  split; [exact Hj2|].
  rewrite (main_file failed cfg dev1 clock1 Hs1).
  rewrite (main_file failed cfg dev2 clock2 Hs2).
  cbn [file closed_log]. rewrite !doubles_log, !firstn_map.
  rewrite !firstn_seq_le by lia.
  apply map_ext_in. intros j' Hj'. apply in_seq in Hj'.
  apply (interval_mean_agree cfg dev1 dev2 _ Hsame). nia.
Qed.

Lemma records_are_causal_example :
  firstn 1 (doubles (file (myfile (snd (main DAQmxFailed_NI small
    (healthy 7 (steady square_wave)) noon))))) =
  firstn 1 (doubles (file (myfile (snd (main DAQmxFailed_NI small
    (healthy 7 (times_out_at 3 square_wave)) dusk))))).
Proof.
  apply (records_are_causal DAQmxFailed_NI small
           (healthy 7 (steady square_wave))
           (healthy 7 (times_out_at 3 square_wave)) noon dusk 0).
  - reflexivity.
  - reflexivity.
  - vm_compute. lia.
  - intros k Hk. cbn in Hk.
    destruct k as [|[|k]]; [reflexivity..|lia].
Defined.

(** ** Timestamps *)

(* Bounds on quotients by constants. *)
Ltac div_bound :=
  repeat first [ apply Nat.Div0.div_lt_upper_bound
               | apply Nat.div_le_lower_bound; [lia|] ];
  lia.

(** The digits of a number below 100, and below 10000, give it back. *)
Lemma two_value (n : nat) :
  n < 100 -> 10 * (n / 10 mod 10) + n mod 10 = n.
Proof.
  intros H. rewrite (Nat.mod_small (n / 10) 10) by div_bound.
  pose proof (Nat.div_mod_eq n 10). lia.
Qed.

Lemma four_value (y : nat) :
  y < 100 * 100 ->
  100 * (10 * (y / 10 / 10 / 10 mod 10) + y / 10 / 10 mod 10)
  + (10 * (y / 10 mod 10) + y mod 10) = y.
Proof.
  intros H. rewrite (Nat.mod_small (y / 10 / 10 / 10) 10) by div_bound.
  pose proof (Nat.div_mod_eq y 10).
  pose proof (Nat.div_mod_eq (y / 10) 10).
  pose proof (Nat.div_mod_eq (y / 10 / 10) 10). lia.
Qed.

Lemma digit_code (d : nat) : d < 10 -> nat_of_ascii (digit d) = 48 + d.
Proof. intros H. unfold digit. apply nat_ascii_embedding. lia. Qed.

Lemma digit_value_digit (d : nat) : d < 10 -> digit_value (digit d) = d.
Proof. intros H. unfold digit_value. rewrite digit_code by exact H. lia. Qed.

Lemma read2_digits (a b : nat) :
  a < 10 -> b < 10 -> read2 (digit a) (digit b) = 10 * a + b.
Proof. intros Ha Hb. unfold read2. now rewrite !digit_value_digit. Qed.

(** A digit is neither a comma nor a line feed. *)
Lemma digit_plain (d : nat) :
  d < 10 -> digit d <> ","%char /\ digit d <> ascii_of_nat 10.
Proof.
  intros H.
  split; intros E; apply (f_equal nat_of_ascii) in E;
    rewrite digit_code in E by exact H; cbn in E; lia.
Qed.

Lemma ltb_false (a b : nat) : b <= a -> (a <? b) = false.
Proof. apply Nat.ltb_ge. Qed.

Lemma ltb_true (a b : nat) : a < b -> (a <? b) = true.
Proof. apply Nat.ltb_lt. Qed.

Lemma decimal_onto_four (fuel y : nat) (acc : string) :
  4 <= fuel -> 1000 <= y < 100 * 100 ->
  decimal_onto fuel y acc =
  String (digit (y / 10 / 10 / 10 mod 10))
    (String (digit (y / 10 / 10 mod 10))
       (String (digit (y / 10 mod 10)) (String (digit (y mod 10)) acc))).
Proof.
  intros Hf Hy. destruct fuel as [|[|[|[|fuel]]]]; try lia.
  cbn [decimal_onto].
  rewrite (ltb_false y 10) by lia.
  rewrite (ltb_false (y / 10) 10) by div_bound.
  rewrite (ltb_false (y / 10 / 10) 10) by div_bound.
  rewrite (ltb_true (y / 10 / 10 / 10) 10) by div_bound.
  reflexivity.
Qed.

Lemma decimal_onto_two (fuel n : nat) (acc : string) :
  2 <= fuel -> 10 <= n < 100 ->
  decimal_onto fuel n acc =
  String (digit (n / 10 mod 10)) (String (digit (n mod 10)) acc).
Proof.
  intros Hf Hn. destruct fuel as [|[|fuel]]; try lia.
  cbn [decimal_onto].
  rewrite (ltb_false n 10) by lia.
  rewrite (ltb_true (n / 10) 10) by div_bound.
  reflexivity.
Qed.

(** A year of four digits prints as its four digits. *)
Lemma decimal_year (y : nat) :
  1000 <= y < 100 * 100 -> decimal y = four_digits y.
Proof.
  intros H. unfold decimal, four_digits, two_digits.
  apply decimal_onto_four; lia.
Qed.

(** A field below 100 prints on exactly two digits. *)
Lemma pad2_two (n : nat) : n < 100 -> pad2 n = two_digits n.
Proof.
  intros H. unfold pad2, decimal, two_digits.
  destruct (n <? 10) eqn:E.
  - cbn [decimal_onto]. rewrite E.
    apply Nat.ltb_lt in E.
    rewrite (Nat.div_small n 10) by lia. reflexivity.
  - apply Nat.ltb_ge in E. apply decimal_onto_two; lia.
Qed.

(** The nineteen characters of a timestamp. *)
Lemma put_time_shape (t : tm) :
  tm_valid t ->
  put_time t =
  (four_digits (1900 + tm_year t) ++ "-" ++ two_digits (tm_mon t + 1) ++ "-"
   ++ two_digits (tm_mday t) ++ " " ++ two_digits (tm_hour t) ++ ":"
   ++ two_digits (tm_min t) ++ ":" ++ two_digits (tm_sec t))%string.
Proof.
  intros (Hs & Hm & Hh & Hd & Hmo & Hy). unfold put_time.
  rewrite decimal_year by lia. rewrite !pad2_two by lia. reflexivity.
Qed.

(** X10. A timestamp of a valid local time is nineteen characters,
    [YYYY-MM-DD HH:MM:SS], with the separators at fixed places, and holds
    neither a comma nor a line feed: in a line of the file the first
    comma is the one line 119 writes between timestamp and value. *)
Theorem timestamp_shape (t : tm) :
  tm_valid t ->
  String.length (put_time t) = 19 /\
  String.get 4 (put_time t) = Some "-"%char /\
  String.get 7 (put_time t) = Some "-"%char /\
  String.get 10 (put_time t) = Some " "%char /\
  String.get 13 (put_time t) = Some ":"%char /\
  String.get 16 (put_time t) = Some ":"%char /\
  (forall c, In c (list_ascii_of_string (put_time t)) ->
             c <> ","%char /\ c <> ascii_of_nat 10).
Proof.
  intros H. rewrite (put_time_shape t H).
  unfold four_digits, two_digits.
  cbn [append String.length String.get list_ascii_of_string].
  repeat (split; [reflexivity|]).
  intros c Hc. cbn [In] in Hc.
  repeat (destruct Hc as [<-|Hc];
          [first [ apply digit_plain; apply Nat.mod_upper_bound; lia
                 | split; discriminate ]|]).
  destruct Hc.
Qed.

Lemma timestamp_shape_example :
  String.length (put_time a_friday_noon) = 19 /\
  put_time a_friday_noon = "2021-03-05 12:00:00"%string.
Proof.
  destruct (timestamp_shape a_friday_noon) as (H & _).
  - unfold tm_valid. cbn. lia.
  - split; [exact H|reflexivity].
Defined.

(** Parsing undoes printing. *)
Lemma parse_put_time (t : tm) :
  tm_valid t -> parse_time (put_time t) = Some t.
Proof.
  intros H. rewrite (put_time_shape t H).
  destruct H as (Hs & Hm & Hh & Hd & Hmo & Hy).
  unfold four_digits, two_digits. cbn [append parse_time].
  rewrite !read2_digits by (apply Nat.mod_upper_bound; lia).
  destruct t as [s mi h d mo y]. cbn [tm_sec tm_min tm_hour tm_mday tm_mon
                                       tm_year] in *.
  rewrite (two_value s), (two_value mi), (two_value h), (two_value d),
    (two_value (mo + 1)), (four_value (1900 + y)) by lia.
  do 2 f_equal; lia.
Qed.

(** X11. A timestamp can be read back: parsing the text written for a
    valid local time gives that time, field for field, and two different
    valid times never get the same timestamp. *)
Theorem timestamp_round_trip (t : tm) :
  tm_valid t ->
  parse_time (put_time t) = Some t /\
  (forall t', tm_valid t' -> put_time t' = put_time t -> t' = t).
Proof.
  intros H. split; [now apply parse_put_time|].
  intros t' H' E. apply (f_equal parse_time) in E.
  rewrite !parse_put_time in E by assumption. now injection E.
Qed.

Lemma timestamp_round_trip_example :
  parse_time "2021-03-05 18:30:07"%string = Some a_friday_dusk.
Proof.
  change "2021-03-05 18:30:07"%string with (put_time a_friday_dusk).
  apply (timestamp_round_trip a_friday_dusk). unfold tm_valid. cbn. lia.
Defined.

(** *** Order *)

Lemma then_compare_Eq_r (c : comparison) : then_compare c Eq = c.
Proof. destruct c; reflexivity. Qed.

Lemma string_compare_cons (a b : ascii) (s s' : string) :
  String.compare (String a s) (String b s') =
  then_compare (Ascii.compare a b) (String.compare s s').
Proof. cbn [String.compare]. destruct (Ascii.compare a b); reflexivity. Qed.

Lemma ascii_compare_same (c : ascii) : Ascii.compare c c = Eq.
Proof. unfold Ascii.compare. apply N.compare_refl. Qed.

Lemma compare_shift (k a b : nat) : (k + a ?= k + b) = (a ?= b).
Proof.
  destruct (Nat.compare_spec a b); [subst; apply Nat.compare_refl| |].
  - apply Nat.compare_lt_iff. lia.
  - apply Nat.compare_gt_iff. lia.
Qed.

Lemma compare_shift_r (k a b : nat) : (a + k ?= b + k) = (a ?= b).
Proof. rewrite !(Nat.add_comm _ k). apply compare_shift. Qed.

Lemma ascii_compare_digit (a b : nat) :
  a < 10 -> b < 10 -> Ascii.compare (digit a) (digit b) = (a ?= b).
Proof.
  intros Ha Hb. unfold Ascii.compare, digit, ascii_of_nat.
  rewrite !N_ascii_embedding by lia.
  destruct (Nat.compare_spec a b) as [->|H|H].
  - apply N.compare_refl.
  - apply N.compare_lt_iff. lia.
  - apply N.compare_gt_iff. lia.
Qed.

Ltac compare_cases :=
  repeat match goal with
         | |- context [?a ?= ?b] => destruct (Nat.compare_spec a b)
         end;
  cbn [then_compare]; first [reflexivity | exfalso; lia].

(** Comparing digit by digit is comparing the numbers. *)
Lemma two_compare (n m : nat) (rest : comparison) :
  n < 100 -> m < 100 ->
  then_compare (n / 10 mod 10 ?= m / 10 mod 10)
    (then_compare (n mod 10 ?= m mod 10) rest) =
  then_compare (n ?= m) rest.
Proof.
  intros Hn Hm.
  pose proof (two_value n Hn) as En. pose proof (two_value m Hm) as Em.
  assert (Bn : n mod 10 < 10) by (apply Nat.mod_upper_bound; lia).
  assert (Bm : m mod 10 < 10) by (apply Nat.mod_upper_bound; lia).
  revert En Em Bn Bm.
  generalize (n / 10 mod 10) (n mod 10) (m / 10 mod 10) (m mod 10).
  intros a b a' b' En Em Bn Bm. compare_cases.
Qed.

Lemma four_compare (y z : nat) (rest : comparison) :
  y < 100 * 100 -> z < 100 * 100 ->
  then_compare (y / 10 / 10 / 10 mod 10 ?= z / 10 / 10 / 10 mod 10)
    (then_compare (y / 10 / 10 mod 10 ?= z / 10 / 10 mod 10)
       (then_compare (y / 10 mod 10 ?= z / 10 mod 10)
          (then_compare (y mod 10 ?= z mod 10) rest))) =
  then_compare (y ?= z) rest.
Proof.
  intros Hy Hz.
  pose proof (four_value y Hy) as Ey. pose proof (four_value z Hz) as Ez.
  assert (By : y / 10 / 10 mod 10 < 10 /\ y / 10 mod 10 < 10 /\ y mod 10 < 10)
    by (repeat split; apply Nat.mod_upper_bound; lia).
  assert (Bz : z / 10 / 10 mod 10 < 10 /\ z / 10 mod 10 < 10 /\ z mod 10 < 10)
    by (repeat split; apply Nat.mod_upper_bound; lia).
  revert Ey Ez By Bz.
  generalize (y / 10 / 10 / 10 mod 10) (y / 10 / 10 mod 10) (y / 10 mod 10)
    (y mod 10) (z / 10 / 10 / 10 mod 10) (z / 10 / 10 mod 10)
    (z / 10 mod 10) (z mod 10).
  intros a b c d a' b' c' d' Ey Ez (B1 & B2 & B3) (B1' & B2' & B3').
  compare_cases.
Qed.

(** X12. Timestamps sort as the times they stand for: comparing the texts
    written for two valid local times character by character gives the
    same answer as comparing the times field by field from the year
    down, so the lines of a file can be ordered by their text. *)
Theorem timestamps_sort_chronologically (t1 t2 : tm) :
  tm_valid t1 -> tm_valid t2 ->
  String.compare (put_time t1) (put_time t2) = tm_compare t1 t2.
Proof.
  intros H1 H2. rewrite (put_time_shape t1 H1), (put_time_shape t2 H2).
  destruct H1 as (Hs1 & Hm1 & Hh1 & Hd1 & Hmo1 & Hy1).
  destruct H2 as (Hs2 & Hm2 & Hh2 & Hd2 & Hmo2 & Hy2).
  unfold four_digits, two_digits. cbn [append].
  rewrite !string_compare_cons.
  rewrite !ascii_compare_digit by (apply Nat.mod_upper_bound; lia).
  rewrite !ascii_compare_same. cbn [then_compare String.compare].
  rewrite four_compare by lia.
  rewrite !two_compare by lia.
  rewrite compare_shift, compare_shift_r, then_compare_Eq_r.
  reflexivity.
Qed.

Lemma timestamps_sort_chronologically_example :
  String.compare (put_time a_friday_noon) (put_time a_friday_dusk) = Lt.
Proof.
  rewrite (timestamps_sort_chronologically a_friday_noon a_friday_dusk).
  - reflexivity.
  - unfold tm_valid. cbn. lia.
  - unfold tm_valid. cbn. lia.
Defined.

(** ** Lines and reads *)

(** X13. The timestamp of a line can be read back from the line: when
    the clock of the run is the local time printed by line 34, the line
    written for outer iteration [j] has its comma at position 19,
    whatever text the value prints as, and the nineteen characters before
    it parse to the local time at which the record was written. *)
Theorem line_timestamp_reads_back (cfg : Config) (dev : Device)
  (localtime_now : nat -> tm) (show_double : float -> string) (j : nat) :
  tm_valid (localtime_now j) ->
  let l := line cfg dev (wall_clock localtime_now) show_double j in
  String.get 19 l = Some ","%char /\
  substring 0 19 l = put_time (localtime_now j) /\
  parse_time (substring 0 19 l) = Some (localtime_now j).
Proof.
  intros H. cbv zeta.
  assert (E : substring 0 19
                (line cfg dev (wall_clock localtime_now) show_double j)
              = put_time (localtime_now j)).
  { unfold line, wall_clock. rewrite (put_time_shape _ H).
    unfold four_digits, two_digits. cbn [append substring]. reflexivity. }
  split; [|split].
  - unfold line, wall_clock. rewrite (put_time_shape _ H).
    unfold four_digits, two_digits. cbn [append String.get]. reflexivity.
  - exact E.
  - rewrite E. now apply parse_put_time.
Qed.

Lemma line_timestamp_reads_back_example :
  parse_time
    (substring 0 19
       (line small (healthy 7 (steady square_wave))
             (wall_clock (fun _ => a_friday_noon)) (fun _ => "3.75"%string) 1))
  = Some a_friday_noon.
Proof.
  apply (line_timestamp_reads_back small (healthy 7 (steady square_wave))
           (fun _ => a_friday_noon) (fun _ => "3.75"%string) 1).
  unfold tm_valid. cbn. lia.
Defined.

(** X14. Every record in the file is backed by [numberOfBuffers] reads:
    at the end of any run the reads the driver saw are at least
    [numberOfBuffers] times the values in the file, and at most one outer
    iteration more; they are exactly that many when the run did not
    fail. *)
Theorem records_backed_by_reads (failed : Z -> bool) (cfg : Config)
  (dev : Device) (clock : nat -> string) :
  let final := snd (main failed cfg dev clock) in
  let written := length (doubles (file (myfile final))) in
  let read := count is_read (calls final) in
  written * numberOfBuffers cfg <= read /\
  read <= written * numberOfBuffers cfg + numberOfBuffers cfg /\
  (failed (error final) = false -> read = written * numberOfBuffers cfg).
Proof.
  cbv zeta. rewrite main_reads.
  destruct (main_frame failed cfg dev clock) as (-> & _).
  destruct (setup_ok failed dev) eqn:Hs.
  - rewrite (main_file failed cfg dev clock Hs). cbn [file closed_log].
    rewrite doubles_log, length_map, length_seq.
    destruct (run_summary failed cfg dev clock Hs) as (-> & _ & Hj & ->).
    rewrite Hj. unfold reads_made, completed.
    destruct (run_cases failed cfg dev)
      as [[-> Hok]|(j & k & -> & HjN & Hk & _)].
    + unfold total_reads. repeat split; lia.
    + rewrite (div_of_place cfg j k Hk). repeat split; lia.
  - rewrite (main_file_no_setup failed cfg dev clock Hs).
    destruct (setup_fails failed cfg dev Hs) as (s & Hrun & _ & Hn & _ & Hf).
    unfold main_body, bind. rewrite Hrun. cbn. rewrite Hn, Hf.
    repeat split; lia.
Qed.

Lemma records_backed_by_reads_example :
  count is_read
    (calls (snd (main DAQmxFailed_NI small (healthy 7 (steady square_wave))
                      noon))) = 2 * 2.
Proof.
  destruct (records_backed_by_reads DAQmxFailed_NI small
              (healthy 7 (steady square_wave)) noon) as (_ & _ & H).
  rewrite (H eq_refl). reflexivity.
Defined.
